(** * Scripted chat models of the supervisor demos

    A shallow embedding of the two scripted chat models of the repository,
    [FakeChatModel] (examples/simple_demo.py) and [MockChatModel]
    (examples/demo_supervisor.py), and the properties their replay
    contract rests on.

    Python objects are mutable and are passed by reference, so the models
    live in a store and the methods are programs of a small monad that
    threads the store, propagates Python exceptions and counts the
    primitive operations it executes. *)

From Stdlib Require Import ZArith Lia Ascii DecimalString.
From stdpp Require Import base list strings.

Local Open Scope Z_scope.

(** ** The fragment of the Python runtime the methods use *)

Module Py.

(** Exceptions the modelled code can raise. *)
Inductive PyExn : Type :=
| IndexError.

(** Plain Python values, as they appear in tool-call arguments and in
    keyword arguments. *)
#[local] Unset Elimination Schemes.
Inductive PyVal : Type :=
| PyNone
| PyInt (z : Z)
| PyStr (s : string)
| PyList (items : list PyVal)
| PyDict (entries : list (string * PyVal)).
#[local] Set Elimination Schemes.

(** [len(l)]. *)
Definition len {A : Type} (l : list A) : Z := Z.of_nat (length l).

(** [l[i]] on a sequence: a negative index counts from the end, an index
    outside [-len(l), len(l))] raises IndexError. *)
Definition getitem {A : Type} (l : list A) (i : Z) : PyExn + A :=
  let j := if i <? 0 then i + len l else i in
  if (j <? 0) || (len l <=? j) then inl IndexError
  else match l !! Z.to_nat j with
       | Some x => inr x
       | None => inl IndexError
       end.

(** Object references: the position of the object in the store. *)
Abbreviation loc := nat.

(** The world a program runs in: the store of objects of class [O] and
    what has been written to the console. *)
Record World (O : Type) : Type := mkWorld {
  heap : list O;
  stdout : list string
}.
Arguments mkWorld {O} _ _.
Arguments heap {O} _.
Arguments stdout {O} _.

(** How a call ends: with a value, with a raised exception, or [Wrong]
    when it used a reference that was never allocated (which no Python
    program can do; the theorems exclude it by hypothesis or by
    construction). *)
Inductive Res (A : Type) : Type :=
| Ret (a : A)
| Raise (e : PyExn)
| Wrong.
Arguments Ret {A} _.
Arguments Raise {A} _.
Arguments Wrong {A}.

(** A finished run: its result, the world it leaves and the number of
    primitive operations it executed. *)
Record Run (O A : Type) : Type := mkRun {
  result : Res A;
  final : World O;
  steps : nat
}.
Arguments mkRun {O A} _ _ _.
Arguments result {O A} _.
Arguments final {O A} _.
Arguments steps {O A} _.

Definition M (O A : Type) : Type := World O -> Run O A.

Definition ret {O A : Type} (a : A) : M O A :=
  fun w => mkRun (Ret a) w 0%nat.

Definition bind {O A B : Type} (m : M O A) (k : A -> M O B) : M O B :=
  fun w =>
    let r := m w in
    match result r with
    | Ret a =>
        let r' := k a (final r) in
        mkRun (result r') (final r') (steps r + steps r')%nat
    | Raise e => mkRun (Raise e) (final r) (steps r)
    | Wrong => mkRun Wrong (final r) (steps r)
    end.

(** [after n r]: the run [r], made after [n] earlier steps. *)
Definition after {O A : Type} (n : nat) (r : Run O A) : Run O A :=
  mkRun (result r) (final r) (n + steps r).

(** A pure primitive operation (a constructor call, a comparison, an
    addition): one step. *)
Definition op {O A : Type} (a : A) : M O A :=
  fun w => mkRun (Ret a) w 1%nat.

(** A subscript [l[i]]: one step, raising what [getitem] raises. *)
Definition subscript {O A : Type} (l : list A) (i : Z) : M O A :=
  fun w =>
    match getitem l i with
    | inr x => mkRun (Ret x) w 1%nat
    | inl e => mkRun (Raise e) w 1%nat
    end.

(** [obj.field]: read a field of the object at [l]. *)
Definition getattr {O F : Type} (l : loc) (field : O -> F) : M O F :=
  fun w =>
    match heap w !! l with
    | Some o => mkRun (Ret (field o)) w 1%nat
    | None => mkRun Wrong w 1%nat
    end.

(** [obj.field = v]: [upd] rebuilds the object with the field changed. *)
Definition setattr {O : Type} (l : loc) (upd : O -> O) : M O unit :=
  fun w =>
    match heap w !! l with
    | Some o => mkRun (Ret tt) (mkWorld (<[l := upd o]> (heap w)) (stdout w)) 1%nat
    | None => mkRun Wrong w 1%nat
    end.

(** Allocation of a new object: it gets the next free reference. *)
Definition alloc {O : Type} (o : O) : M O loc :=
  fun w => mkRun (Ret (length (heap w))) (mkWorld (heap w ++ [o]) (stdout w)) 1%nat.

(** A list comprehension [[f(x) for x in l]] with a pure body: one step
    per element. *)
Definition comprehension {O A B : Type} (f : A -> B) (l : list A) : M O (list B) :=
  fun w => mkRun (Ret (f <$> l)) w (length l).

(** [print(s)]. *)
Definition print {O : Type} (s : string) : M O unit :=
  fun w => mkRun (Ret tt) (mkWorld (heap w) (stdout w ++ [s])) 1%nat.

(** [try: m  except Exception as e: ...]: the caller observes the value or
    the exception; the effects [m] had before raising stay. *)
Definition attempt {O A : Type} (m : M O A) : M O (PyExn + A) :=
  fun w =>
    let r := m w in
    match result r with
    | Ret a => mkRun (Ret (inr a)) (final r) (steps r)
    | Raise e => mkRun (Ret (inl e)) (final r) (steps r)
    | Wrong => mkRun Wrong (final r) (steps r)
    end.

End Py.

Import Py.

(** The monad's sequencing is written with stdpp's notations
    [x ← m; k] and [m;; k]. *)
#[global] Instance M_ret (O : Type) : MRet (M O) := @ret O.
#[global] Instance M_bind (O : Type) : MBind (M O) := fun A B k m => bind m k.

(** ** Messages and results (langchain_core's data classes, as the demos
    build and return them) *)

(** One requested tool invocation: the dict with keys name, args, id and
    type of the scripted messages. *)
Record ToolCall : Type := mkToolCall {
  tc_name : string;
  tc_args : list (string * PyVal);
  tc_id : string;
  tc_type : string
}.

(** A role-tagged message. *)
Inductive BaseMessage : Type :=
| AIMessage (content : string) (tool_calls : list ToolCall)
| HumanMessage (content : string).

Record ChatGeneration : Type := mkChatGeneration {
  message : BaseMessage
}.

Record ChatResult : Type := mkChatResult {
  generations : list ChatGeneration
}.

(** The run manager the framework hands to [_generate]. *)
Record CallbackManagerForLLMRun : Type := mkRunManager {
  run_id : string
}.

(** The arguments of one [_generate] call. *)
Record Call : Type := mkCall {
  messages : list BaseMessage;
  stop : option (list string);
  run_manager : option CallbackManagerForLLMRun;
  kwargs : list (string * PyVal)
}.

(** A tool descriptor handed to [bind_tools]: a [BaseTool] with its name,
    or a dict, type or callable, of which the code only takes [str(tool)]. *)
Inductive ToolSpec : Type :=
| BaseTool (name : string)
| OtherTool (str : string).

(** ** The framework's side of the model interface

    [Runnable.bind] and the dispatch of a call to [_generate] belong to
    langchain_core, not to the repository.  They are modelled by their
    contract: a binding refers to the model it was made from, and a call
    through it reaches that model's [_generate] with the bound keyword
    arguments added to the call's own. *)

Module Framework.

Record RunnableBinding : Type := mkBinding {
  bound : loc;
  bound_kwargs : list (string * PyVal)
}.

(** What an agent holds as its model: the model itself or a binding. *)
Inductive Runnable : Type :=
| Model (self : loc)
| Binding (b : RunnableBinding).

Section Dispatch.
Context {O : Type}.
Variable _generate :
  loc -> list BaseMessage -> option (list string) ->
  option CallbackManagerForLLMRun -> list (string * PyVal) -> M O ChatResult.

(** [self.bind(k=v, ...)]: the binding of [self] with keyword arguments [kw]. *)
Definition bind (self : loc) (kw : list (string * PyVal)) : M O RunnableBinding :=
  op (mkBinding self kw).

Definition invoke (r : Runnable) (c : Call) : M O ChatResult :=
  match r with
  | Model self =>
      _generate self (messages c) (stop c) (run_manager c) (kwargs c)
  | Binding b =>
      _generate (bound b) (messages c) (stop c) (run_manager c)
        (bound_kwargs b ++ kwargs c)
  end.

(** A caller that makes the calls of [script] one after the other, each
    through the handle given with it, and records how each one ended. *)
Fixpoint play (script : list (Runnable * Call)) : M O (list (PyExn + ChatResult)) :=
  match script with
  | [] => mret []
  | (r, c) :: script' =>
      o ← attempt (invoke r c);
      os ← play script';
      mret (o :: os)
  end.

(** The calls [cs], all through the same handle. *)
Definition calls (r : Runnable) (cs : list Call) : M O (list (PyExn + ChatResult)) :=
  play (pair r <$> cs).
End Dispatch.

End Framework.

Import Framework.

(** ** FakeChatModel (examples/simple_demo.py) *)

Module FakeChatModel.

Record t : Type := mk {
  idx : Z;
  responses : list BaseMessage
}.

(** [FakeChatModel(responses=rs)], the form of every call site: [idx]
    takes its declared default 0. *)
Definition new (rs : list BaseMessage) : M t loc :=
  alloc {| idx := 0; responses := rs |}.

Definition _generate (self : loc) (messages : list BaseMessage)
    (stop : option (list string))
    (run_manager : option CallbackManagerForLLMRun)
    (kwargs : list (string * PyVal)) : M t ChatResult :=
  rs ← getattr self responses;
  i ← getattr self idx;
  msg ← subscript rs i;
  generation ← op (mkChatGeneration msg);
  i ← getattr self idx;
  i' ← op (i + 1);
  setattr self (fun o => {| idx := i'; responses := responses o |});;
  gens ← op [generation];
  op (mkChatResult gens).

Definition tool_dict (tool : ToolSpec) : PyVal :=
  PyDict [("name"%string,
           PyStr (match tool with BaseTool name => name | OtherTool str => str end))].

Definition bind_tools (self : loc) (tools : list ToolSpec)
    (kwargs : list (string * PyVal)) : M t RunnableBinding :=
  tool_dicts ← comprehension tool_dict tools;
  Framework.bind self [("tools"%string, PyList tool_dicts)].

(** The object after one more response has been consumed. *)
Definition advance (m : t) : t := {| idx := idx m + 1; responses := responses m |}.

(** What a call returns when it replays the message [r]. *)
Definition reply (r : BaseMessage) : ChatResult :=
  mkChatResult [mkChatGeneration r].

(** How a caller sees a call end once the script has run out: the
    subscript raises. *)
Definition exhausted : PyExn + ChatResult := inl IndexError.

End FakeChatModel.

(** ** MockChatModel (examples/demo_supervisor.py) *)

Module MockChatModel.

Record t : Type := mk {
  responses : list string;
  current_index : Z
}.

(** [MockChatModel(rs)]: the object is allocated with the fields
    [__init__] passes on, [responses=rs] and [current_index=0].  No call
    site gives further keyword arguments. *)
Definition __init__ (rs : list string) : M t loc :=
  alloc {| responses := rs; current_index := 0 |}.

Definition fallback : string := "I don't have more responses configured.".

Definition _generate (self : loc) (messages : list BaseMessage)
    (stop : option (list string))
    (run_manager : option CallbackManagerForLLMRun)
    (kwargs : list (string * PyVal)) : M t ChatResult :=
  i ← getattr self current_index;
  rs ← getattr self responses;
  n ← op (len rs);
  in_range ← op (i <? n);
  response ←
    (if in_range : bool then
       rs ← getattr self responses;
       i ← getattr self current_index;
       response ← subscript rs i;
       i ← getattr self current_index;
       i' ← op (i + 1);
       setattr self (fun o => {| responses := responses o; current_index := i' |});;
       mret response
     else
       op fallback);
  message ← op (AIMessage response []);
  generation ← op (mkChatGeneration message);
  gens ← op [generation];
  op (mkChatResult gens).

Definition bind_tools (self : loc) (tools : list ToolSpec)
    (kwargs : list (string * PyVal)) : M t loc :=
  mret self.

(** The object after one more response has been consumed. *)
Definition advance (m : t) : t :=
  {| responses := responses m; current_index := current_index m + 1 |}.

(** What a call returns when it replays the string [r]. *)
Definition reply (r : string) : ChatResult :=
  mkChatResult [mkChatGeneration (AIMessage r [])].

(** How a caller sees a call end once the script has run out: with the
    fallback sentence as a message. *)
Definition exhausted : PyExn + ChatResult := inr (reply fallback).

End MockChatModel.

(** ** What a caller observes of a replay

    [replayed wrap exhausted rs i k]: what [k] calls in a row end with on
    a model whose script is [rs] and whose cursor is at [i]: the
    responses from position [i] on, each once and in order, and then
    [exhausted] for every call made after the script has run out. *)
Definition replayed {R : Type} (wrap : R -> ChatResult)
    (exhausted : PyExn + ChatResult) (rs : list R) (i k : nat) :
    list (PyExn + ChatResult) :=
  (inr ∘ wrap <$> take k (drop i rs)) ++ replicate (k - (length rs - i)) exhausted.

(** The calls of a caller that holds both the model [self] and a handle
    [h] obtained from it: each call goes through [h] when its flag is
    set and through the model itself otherwise. *)
Definition through (self : loc) (h : Runnable) (script : list (bool * Call)) :
    list (Runnable * Call) :=
  (fun bc : bool * Call => (if fst bc then h else Model self, snd bc)) <$> script.

(** Inputs of the worked instances. *)
Module Sample.
Definition x : BaseMessage := AIMessage "x" [].
Definition y : BaseMessage :=
  AIMessage "y" [mkToolCall "add" [("a"%string, PyInt 67317)] "call_add_001" "tool_call"].
Definition z : BaseMessage := AIMessage "z" [].
Definition h1 : Call := mkCall [HumanMessage "What is 15 + 27?"] None None [].
Definition h2 : Call :=
  mkCall [HumanMessage "hi"; x] (Some ["stop"%string]) (Some (mkRunManager "run-1")) [].
Definition h3 : Call := mkCall [] None None [("temperature"%string, PyInt 0)].
Definition fake0 : World FakeChatModel.t := mkWorld [] [].
Definition mock0 : World MockChatModel.t := mkWorld [] [].
(** A world with one fake model whose script [[x; y]] has run out. *)
Definition fake_done : World FakeChatModel.t :=
  mkWorld [FakeChatModel.mk 2 [x; y]] ["started"%string].
(** A world with one fake model in the middle of its script. *)
Definition fake_mid : World FakeChatModel.t :=
  mkWorld [FakeChatModel.mk 1 [x; y]; FakeChatModel.mk 0 [z]] ["started"%string].
Definition mock_done : World MockChatModel.t :=
  mkWorld [MockChatModel.mk ["x"; "y"]%string 2] ["started"%string].
Definition mock_mid : World MockChatModel.t :=
  mkWorld [MockChatModel.mk ["x"; "y"]%string 1; MockChatModel.mk ["z"%string] 0]
    ["started"%string].
End Sample.

(** ** Strings, dictionaries and tools

    Python strings are modelled by their UTF-8 bytes.  Concatenation,
    equality, [in] and the replacement of one ASCII character by another
    are the same on bytes as on characters; [lower], [title], slices and
    lengths are Python's on ASCII text, which is what the theorems about
    them assume of their inputs. *)

Module Str.

Definition nl : string := String (Ascii.ascii_of_nat 10) EmptyString.

Definition is_upper (c : Ascii.ascii) : bool :=
  (65 <=? Ascii.nat_of_ascii c)%nat && (Ascii.nat_of_ascii c <=? 90)%nat.

Definition is_lower (c : Ascii.ascii) : bool :=
  (97 <=? Ascii.nat_of_ascii c)%nat && (Ascii.nat_of_ascii c <=? 122)%nat.

Definition to_lower (c : Ascii.ascii) : Ascii.ascii :=
  if is_upper c then Ascii.ascii_of_nat (Ascii.nat_of_ascii c + 32) else c.

Definition to_upper (c : Ascii.ascii) : Ascii.ascii :=
  if is_lower c then Ascii.ascii_of_nat (Ascii.nat_of_ascii c - 32) else c.

(** [s.lower()]. *)
Fixpoint lower (s : string) : string :=
  match s with
  | EmptyString => EmptyString
  | String c s' => String (to_lower c) (lower s')
  end.

(** [s.title()]: a letter that follows a letter is lowered, any other
    letter is raised; [cased] tells whether the previous character was a
    letter. *)
Fixpoint title_from (cased : bool) (s : string) : string :=
  match s with
  | EmptyString => EmptyString
  | String c s' =>
      if is_lower c then String (if cased then c else to_upper c) (title_from true s')
      else if is_upper c then String (if cased then to_lower c else c) (title_from true s')
      else String c (title_from false s')
  end.

Definition title (s : string) : string := title_from false s.

(** [s.replace(old, new)] for one-character [old] and [new]. *)
Fixpoint replace (old new : Ascii.ascii) (s : string) : string :=
  match s with
  | EmptyString => EmptyString
  | String c s' => String (if Ascii.eqb c old then new else c) (replace old new s')
  end.

(** [sub in s]. *)
Fixpoint contains (sub s : string) : bool :=
  String.prefix sub s ||
  match s with
  | EmptyString => false
  | String _ s' => contains sub s'
  end.

(** [s[:n]]. *)
Definition slice_to (n : nat) (s : string) : string := String.substring 0 n s.

(** [str(z)] of an int, also what [{z}] gives in an f-string. *)
Definition of_int (z : Z) : string := NilZero.string_of_int (Z.to_int z).

Fixpoint is_ascii (s : string) : bool :=
  match s with
  | EmptyString => true
  | String c s' => (Ascii.nat_of_ascii c <? 128)%nat && is_ascii s'
  end.

End Str.

(** A tool prints lines and returns a value or raises; what it printed
    before raising stays printed. *)

Module Tool.

Inductive ToolExn : Type :=
| KeyError (key : string).

Record Outcome (A : Type) : Type := mkOutcome {
  printed : list string;
  returned : ToolExn + A
}.
Arguments mkOutcome {A} _ _.
Arguments printed {A} _.
Arguments returned {A} _.

Definition ret {A : Type} (a : A) : Outcome A := mkOutcome [] (inr a).

Definition bind {A B : Type} (m : Outcome A) (k : A -> Outcome B) : Outcome B :=
  match returned m with
  | inr a => mkOutcome (printed m ++ printed (k a)) (returned (k a))
  | inl e => mkOutcome (printed m) (inl e)
  end.

(** [print(line)]. *)
Definition print (line : string) : Outcome unit := mkOutcome [line] (inr tt).

(** A dict with string keys, in insertion order. *)
Definition dict (V : Type) : Type := list (string * V).

Fixpoint lookup {V : Type} (d : dict V) (key : string) : option V :=
  match d with
  | [] => None
  | (k, v) :: d' => if String.eqb k key then Some v else lookup d' key
  end.

(** [d.get(key, default)]. *)
Definition get {V : Type} (d : dict V) (key : string) (default : V) : V :=
  match lookup d key with
  | Some v => v
  | None => default
  end.

(** [d[key]]. *)
Definition item {V : Type} (d : dict V) (key : string) : Outcome V :=
  match lookup d key with
  | Some v => mkOutcome [] (inr v)
  | None => mkOutcome [] (inl (KeyError key))
  end.

(** [list(d)]: the keys, in insertion order. *)
Definition keys {V : Type} (d : dict V) : list string := fst <$> d.

End Tool.

#[global] Instance Tool_ret : MRet Tool.Outcome := @Tool.ret.
#[global] Instance Tool_bind : MBind Tool.Outcome := fun A B k m => Tool.bind m k.

(** ** The research tool of examples/demo_supervisor.py *)

Module DemoSupervisor.
Import Str Tool.

Definition mock_results : dict string :=
  [("FAANG", "FAANG companies headcount 2024: Meta (67,317), Apple (164,000), Amazon (1,551,000), Netflix (14,000), Google (181,269)");
   ("weather", "Today's weather is sunny with a temperature of 72°F");
   ("news", "Latest tech news: AI developments continue to accelerate across industries")].

(** The loop over the keys of [mock_results], and the return after it. *)
Fixpoint web_search_loop (keys : list string) (query : string) : Outcome string :=
  match keys with
  | [] => mret ("Mock search results for: " +:+ query)
  | key :: keys' =>
      if contains (lower key) (lower query) then item mock_results key
      else web_search_loop keys' query
  end.

Definition web_search (query : string) : Outcome string :=
  print ("🔍 Research Agent: Searching for '" +:+ query +:+ "'");;
  web_search_loop (keys mock_results) query.

End DemoSupervisor.

(** ** The research and analysis tools of examples/real_world_example.py *)

Module RealWorldExample.
Import Str Tool.

Definition search_information (query : string) : Outcome string :=
  print ("🔍 Research Agent: Searching for '" +:+ query +:+ "'");;
  if contains "weather" (lower query) then
    mret "Current weather: Sunny, 75°F with light winds"
  else if contains "stock" (lower query) || contains "price" (lower query) then
    mret "AAPL: $150.25 (+2.1%), GOOGL: $2,800.50 (+1.8%), MSFT: $380.75 (+0.9%)"
  else if contains "news" (lower query) then
    mret "Latest tech news: AI developments continue, new breakthrough in quantum computing announced"
  else
    mret ("Search results for '" +:+ query +:+ "': Found relevant information about the topic").

Definition analyze_data (data : string) : Outcome string :=
  print ("📊 Analysis Agent: Analyzing data: " +:+ slice_to 50 data +:+ "...");;
  mret ("Analysis complete: The data shows positive trends with key insights about " +:+ slice_to 30 data +:+ "...").

End RealWorldExample.

(** ** The tools of examples/fitness_ai_orchestration.py that do no
    floating-point arithmetic *)

Module Orchestration.
Import Str Tool.

Definition workout_plans : dict (dict string) :=
  [("weight_loss",
     [("beginner", "3-day full body circuit training with cardio intervals");
      ("intermediate", "4-day upper/lower split with HIIT sessions");
      ("advanced", "5-day push/pull/legs with daily cardio")]);
   ("muscle_gain",
     [("beginner", "3-day full body strength training");
      ("intermediate", "4-day upper/lower split with progressive overload");
      ("advanced", "6-day push/pull/legs with isolation work")]);
   ("strength",
     [("beginner", "3-day compound movement focus");
      ("intermediate", "4-day powerlifting style training");
      ("advanced", "5-day strength specialization program")]);
   ("endurance",
     [("beginner", "3-day cardio base building");
      ("intermediate", "4-day mixed cardio training");
      ("advanced", "6-day endurance specialization")]);
   ("general_fitness",
     [("beginner", "3-day balanced fitness routine");
      ("intermediate", "4-day functional fitness program");
      ("advanced", "5-day comprehensive fitness plan")])].

Definition equipment_notes : dict string :=
  [("none", "Bodyweight exercises only");
   ("basic", "Using dumbbells, resistance bands, and bodyweight");
   ("gym", "Full gym equipment available");
   ("home_gym", "Home gym setup with weights and machines")].

(** The text [create_workout_plan] returns, from the variables it
    mentions. *)
Definition workout_plan_text (fitness_goal experience_level : string)
    (available_days : Z) (equipment_note plan_description : string) : string :=
  nl
  +:+ "🏋️ WORKOUT PLAN CREATED:" +:+ nl
  +:+ "Goal: " +:+ title (replace "_"%char " "%char fitness_goal) +:+ nl
  +:+ "Level: " +:+ title experience_level +:+ nl
  +:+ "Schedule: " +:+ of_int available_days +:+ " days per week" +:+ nl
  +:+ "Equipment: " +:+ equipment_note +:+ nl
  +:+ nl
  +:+ "Plan: " +:+ plan_description +:+ nl
  +:+ nl
  +:+ "Key Focus Areas:" +:+ nl
  +:+ "- Progressive overload principles" +:+ nl
  +:+ "- Proper form and technique" +:+ nl
  +:+ "- Recovery and rest days" +:+ nl
  +:+ "- Injury prevention strategies" +:+ nl
  +:+ nl
  +:+ "Recommended duration: 8-12 weeks before reassessment" +:+ nl.

Definition create_workout_plan (fitness_goal experience_level : string)
    (available_days : Z) (equipment : string) : Outcome string :=
  print ("💪 Workout Specialist: Creating " +:+ fitness_goal +:+ " plan for " +:+ experience_level +:+ " level");;
  general_fitness ← item workout_plans "general_fitness";
  let base_plan := get workout_plans fitness_goal general_fitness in
  beginner ← item base_plan "beginner";
  let plan_description := get base_plan experience_level beginner in
  let plan_description :=
    if available_days <? 3 then
      "Modified 2-day version: " +:+ plan_description
    else if 5 <? available_days then
      "Extended " +:+ of_int available_days +:+ "-day version: " +:+ plan_description
    else plan_description in
  basic ← item equipment_notes "basic";
  let equipment_note := get equipment_notes equipment basic in
  mret (workout_plan_text fitness_goal experience_level available_days
          equipment_note plan_description).

Definition modifications : dict (dict string) :=
  [("squats",
     [("knee_injury", "Wall sits, chair squats, or partial range squats");
      ("back_pain", "Goblet squats with proper form, box squats");
      ("no_equipment", "Bodyweight squats, jump squats, single-leg squats")]);
   ("deadlifts",
     [("back_pain", "Romanian deadlifts, trap bar deadlifts, or hip hinges");
      ("knee_injury", "Single-leg RDLs, good mornings");
      ("no_equipment", "Single-leg deadlifts, glute bridges")]);
   ("push_ups",
     [("wrist_pain", "Push-ups on fists, incline push-ups");
      ("shoulder_injury", "Wall push-ups, chest press with bands");
      ("too_difficult", "Knee push-ups, incline push-ups")]);
   ("running",
     [("knee_injury", "Swimming, cycling, elliptical training");
      ("back_pain", "Walking, water jogging, recumbent bike");
      ("no_equipment", "Walking, stair climbing, bodyweight cardio")])].

(** The text [suggest_exercise_modifications] returns. *)
Definition modification_text (exercise_name limitation fitness_level
    modification : string) : string :=
  nl
  +:+ "🔧 EXERCISE MODIFICATION:" +:+ nl
  +:+ "Original Exercise: " +:+ title exercise_name +:+ nl
  +:+ "Limitation: " +:+ title (replace "_"%char " "%char limitation) +:+ nl
  +:+ "Fitness Level: " +:+ title fitness_level +:+ nl
  +:+ nl
  +:+ "Recommended Modification: " +:+ modification +:+ nl
  +:+ nl
  +:+ "Additional Tips:" +:+ nl
  +:+ "- Start with lower intensity and progress gradually" +:+ nl
  +:+ "- Focus on proper form over speed or weight" +:+ nl
  +:+ "- Listen to your body and stop if pain occurs" +:+ nl
  +:+ "- Consider working with a qualified trainer" +:+ nl.

Definition suggest_exercise_modifications (exercise_name limitation
    fitness_level : string) : Outcome string :=
  print ("💪 Workout Specialist: Modifying " +:+ exercise_name +:+ " for " +:+ limitation);;
  let exercise_mods := get modifications (lower exercise_name) [] in
  let modification :=
    get exercise_mods limitation
      ("Consult with a physical therapist for " +:+ exercise_name +:+ " modifications") in
  mret (modification_text exercise_name limitation fitness_level modification).

Definition pre_workout : dict (dict string) :=
  [("strength",
     [("timing", "30-60 minutes before");
      ("foods", "Banana with almond butter, oatmeal with berries, Greek yogurt with honey")]);
   ("cardio",
     [("timing", "30-45 minutes before");
      ("foods", "Toast with jam, banana, small smoothie with fruit")]);
   ("hiit",
     [("timing", "30-45 minutes before");
      ("foods", "Apple with small amount of nut butter, dates, small energy bar")]);
   ("endurance",
     [("timing", "1-2 hours before");
      ("foods", "Oatmeal with banana, whole grain toast with honey, energy bar")])].

Definition post_workout : dict (dict string) :=
  [("strength",
     [("timing", "Within 30-60 minutes");
      ("foods", "Protein shake with banana, chicken with rice, Greek yogurt with granola")]);
   ("cardio",
     [("timing", "Within 30-45 minutes");
      ("foods", "Chocolate milk, smoothie with protein, turkey sandwich")]);
   ("hiit",
     [("timing", "Within 30 minutes");
      ("foods", "Protein shake, eggs with toast, recovery smoothie")]);
   ("endurance",
     [("timing", "Within 30 minutes");
      ("foods", "Recovery drink, pasta with protein, quinoa bowl with vegetables")])].

Definition time_adjustments : dict string :=
  [("morning", "Consider lighter pre-workout options, focus on easily digestible carbs");
   ("afternoon", "Normal pre/post workout nutrition timing applies");
   ("evening", "Lighter post-workout meals, avoid heavy foods close to bedtime")].

Definition restriction_mods : dict string :=
  [("vegan", "Replace dairy with plant-based alternatives, use plant proteins");
   ("vegetarian", "Include eggs and dairy, focus on complete proteins");
   ("gluten_free", "Use gluten-free grains and certified products");
   ("dairy_free", "Use non-dairy milk alternatives and dairy-free proteins")].

(** The text [suggest_pre_post_workout_nutrition] returns. *)
Definition workout_nutrition_text (workout_type : string) (workout_duration : Z)
    (time_of_day dietary_restrictions pre_timing pre_foods post_timing post_foods
     time_note restriction_note : string) : string :=
  nl
  +:+ "🏃‍♂️ PRE & POST WORKOUT NUTRITION:" +:+ nl
  +:+ nl
  +:+ "Workout Details:" +:+ nl
  +:+ "- Type: " +:+ title workout_type +:+ nl
  +:+ "- Duration: " +:+ of_int workout_duration +:+ " minutes" +:+ nl
  +:+ "- Time: " +:+ title time_of_day +:+ nl
  +:+ "- Restrictions: " +:+ title (replace "_"%char " "%char dietary_restrictions) +:+ nl
  +:+ nl
  +:+ "PRE-WORKOUT NUTRITION:" +:+ nl
  +:+ "Timing: " +:+ pre_timing +:+ nl
  +:+ "Recommended Foods: " +:+ pre_foods +:+ nl
  +:+ "Goal: Provide energy, prevent hunger, optimize performance" +:+ nl
  +:+ nl
  +:+ "POST-WORKOUT NUTRITION:" +:+ nl
  +:+ "Timing: " +:+ post_timing +:+ nl
  +:+ "Recommended Foods: " +:+ post_foods +:+ nl
  +:+ "Goal: Muscle recovery, glycogen replenishment, adaptation" +:+ nl
  +:+ nl
  +:+ "TIME-SPECIFIC CONSIDERATIONS:" +:+ nl
  +:+ time_note +:+ nl
  +:+ nl
  +:+ "DIETARY MODIFICATIONS:" +:+ nl
  +:+ restriction_note +:+ nl
  +:+ nl
  +:+ "HYDRATION REMINDERS:" +:+ nl
  +:+ "- Pre-workout: 250ml water 1 hour before" +:+ nl
  +:+ "- During: 150-250ml every 15-20 minutes" +:+ nl
  +:+ "- Post: 150% of fluid lost through sweat" +:+ nl
  +:+ nl
  +:+ "GENERAL TIPS:" +:+ nl
  +:+ "- Avoid high fiber/fat foods immediately pre-workout" +:+ nl
  +:+ "- Include both carbs and protein post-workout" +:+ nl
  +:+ "- Listen to your body and adjust portions as needed" +:+ nl.

Definition suggest_pre_post_workout_nutrition (workout_type : string)
    (workout_duration : Z) (time_of_day dietary_restrictions : string) :
    Outcome string :=
  print ("🥗 Nutritionist: Creating pre/post workout nutrition for " +:+ workout_type +:+ " training");;
  pre_strength ← item pre_workout "strength";
  let pre_rec := get pre_workout workout_type pre_strength in
  post_strength ← item post_workout "strength";
  let post_rec := get post_workout workout_type post_strength in
  afternoon ← item time_adjustments "afternoon";
  let time_note := get time_adjustments time_of_day afternoon in
  let restriction_note :=
    get restriction_mods dietary_restrictions "No special modifications needed" in
  pre_timing ← item pre_rec "timing";
  pre_foods ← item pre_rec "foods";
  post_timing ← item post_rec "timing";
  post_foods ← item post_rec "foods";
  mret (workout_nutrition_text workout_type workout_duration time_of_day
          dietary_restrictions pre_timing pre_foods post_timing post_foods
          time_note restriction_note).

End Orchestration.

(** ** The workout planner of src/fitness_ai/tools.py *)

Module FitnessTools.
Import Str Tool.

(** The dict [plans], which the function builds from [days]. *)
Definition plans (days : Z) : dict string :=
  [("weight_loss", of_int days +:+ "-day fat burning program with cardio and strength training");
   ("muscle_gain", of_int days +:+ "-day muscle building program with progressive overload");
   ("strength", of_int days +:+ "-day strength training program focusing on compound movements");
   ("endurance", of_int days +:+ "-day cardiovascular endurance program");
   ("general_fitness", of_int days +:+ "-day balanced fitness routine for overall health")].

Definition equipment_notes : dict string :=
  [("none", "Bodyweight exercises only - no equipment needed");
   ("basic", "Using dumbbells, resistance bands, and bodyweight exercises");
   ("gym", "Full gym equipment available - machines, free weights, cardio");
   ("home_gym", "Home gym setup with weights, machines, and accessories")].

(** The text [create_workout_plan] returns. *)
Definition workout_plan_text (goal level : string) (days : Z)
    (equipment_note plan : string) : string :=
  nl
  +:+ "🏋️ WORKOUT PLAN CREATED:" +:+ nl
  +:+ "Goal: " +:+ title (replace "_"%char " "%char goal) +:+ nl
  +:+ "Level: " +:+ title level +:+ nl
  +:+ "Schedule: " +:+ of_int days +:+ " days per week" +:+ nl
  +:+ "Equipment: " +:+ equipment_note +:+ nl
  +:+ nl
  +:+ "Program: " +:+ plan +:+ nl
  +:+ nl
  +:+ "Key Components:" +:+ nl
  +:+ "- Progressive overload principles" +:+ nl
  +:+ "- Proper form and technique focus" +:+ nl
  +:+ "- Adequate recovery periods" +:+ nl
  +:+ "- Injury prevention strategies" +:+ nl
  +:+ "- Flexibility and mobility work" +:+ nl
  +:+ nl
  +:+ "Recommendations:" +:+ nl
  +:+ "- Start with lighter weights and focus on form" +:+ nl
  +:+ "- Gradually increase intensity over time" +:+ nl
  +:+ "- Include warm-up and cool-down in each session" +:+ nl
  +:+ "- Track progress weekly" +:+ nl
  +:+ nl
  +:+ "Duration: 8-12 weeks with regular assessments and adjustments" +:+ nl.

Definition create_workout_plan (goal level : string) (days : Z)
    (equipment : string) : Outcome string :=
  print ("💪 Workout Specialist: Creating " +:+ goal +:+ " plan for " +:+ level +:+ " level");;
  general_fitness ← item (plans days) "general_fitness";
  let plan := get (plans days) goal general_fitness in
  basic ← item equipment_notes "basic";
  let equipment_note := get equipment_notes equipment basic in
  mret (workout_plan_text goal level days equipment_note plan).

(** The choice of the macronutrient ratio in [create_meal_plan] of
    src/fitness_ai/tools.py: the dict [ratios] and the line
    [ratio = ratios.get(goal, ratios["maintenance"])].  What the function
    goes on to compute from the ratio is floating-point arithmetic. *)
Definition ratios : dict (dict Z) :=
  [("weight_loss", [("protein", 30); ("carbs", 35); ("fat", 35)]);
   ("muscle_gain", [("protein", 25); ("carbs", 45); ("fat", 30)]);
   ("maintenance", [("protein", 20); ("carbs", 50); ("fat", 30)]);
   ("performance", [("protein", 20); ("carbs", 55); ("fat", 25)])].

Definition meal_plan_ratio (goal : string) : Outcome (dict Z) :=
  maintenance ← item ratios "maintenance";
  mret (get ratios goal maintenance).

End FitnessTools.

(** ** The demos' scripts run as expected *)

Example fake_two_then_fail :
  result ((a ← FakeChatModel.new [Sample.x; Sample.y];
           calls FakeChatModel._generate (Model a) [Sample.h1; Sample.h2; Sample.h3])
            Sample.fake0)
  = Ret [inr (FakeChatModel.reply Sample.x); inr (FakeChatModel.reply Sample.y);
         inl IndexError].
Proof. reflexivity. Qed.

Example mock_two_then_fallback :
  result ((a ← MockChatModel.__init__ ["x"; "y"]%string;
           calls MockChatModel._generate (Model a) [Sample.h1; Sample.h2; Sample.h3])
            Sample.mock0)
  = Ret [inr (MockChatModel.reply "x"); inr (MockChatModel.reply "y");
         inr (MockChatModel.reply MockChatModel.fallback)].
Proof. reflexivity. Qed.

Example getitem_counts_from_the_end :
  getitem [Sample.x; Sample.y] (-1) = inr Sample.y
  /\ getitem [Sample.x; Sample.y] (-3) = inl IndexError
  /\ getitem [Sample.x; Sample.y] 2 = inl IndexError.
Proof. repeat split. Qed.

(** ** Subscripts *)

Section Getitem.
Context {A : Type}.
Implicit Types (l : list A) (i : Z) (n : nat).

Lemma getitem_nat l n :
  getitem l (Z.of_nat n) =
    match l !! n with Some x => inr x | None => inl IndexError end.
Proof.
  unfold getitem, len.
  destruct (Z.ltb_spec (Z.of_nat n) 0) as [Hneg | _]; [lia |].
  rewrite Nat2Z.id.
  destruct (Z.ltb_spec (Z.of_nat n) 0) as [Hneg | _]; [lia |].
  destruct (Z.leb_spec (Z.of_nat (length l)) (Z.of_nat n)) as [Hge | Hlt]; simpl.
  - rewrite lookup_ge_None_2 by lia. reflexivity.
  - reflexivity.
Qed.

Lemma getitem_past_end l i : len l <= i -> getitem l i = inl IndexError.
Proof.
  unfold getitem, len. intros Hge.
  destruct (Z.ltb_spec i 0) as [Hneg | _]; [lia |].
  destruct (Z.ltb_spec i 0) as [Hneg | _]; [lia |].
  destruct (Z.leb_spec (Z.of_nat (length l)) i) as [_ | Hlt]; [reflexivity | lia].
Qed.

Lemma getitem_in_range l i :
  0 <= i < len l -> exists x, l !! Z.to_nat i = Some x /\ getitem l i = inr x.
Proof.
  intros [Hlo Hhi]. unfold len in Hhi.
  destruct (lookup_lt_is_Some_2 l (Z.to_nat i)) as [x Hx]; [lia |].
  exists x. split; [exact Hx |].
  rewrite <- (Z2Nat.id i) at 1 by lia. rewrite getitem_nat, Hx. reflexivity.
Qed.
End Getitem.

(** ** Running the monad's operations *)

Section Running.
Context {O : Type}.
Implicit Types (w : World O) (l : loc).

Lemma after_after {A : Type} (n n' : nat) (r : Run O A) :
  after n (after n' r) = after (n + n') r.
Proof. unfold after. simpl. f_equal. lia. Qed.

Lemma after_zero {A : Type} (r : Run O A) : after 0 r = r.
Proof. destruct r. reflexivity. Qed.

Lemma result_after {A : Type} (n : nat) (r : Run O A) : result (after n r) = result r.
Proof. reflexivity. Qed.

Lemma final_after {A : Type} (n : nat) (r : Run O A) : final (after n r) = final r.
Proof. reflexivity. Qed.

Lemma steps_after {A : Type} (n : nat) (r : Run O A) :
  steps (after n r) = (n + steps r)%nat.
Proof. reflexivity. Qed.

Lemma run_bind {A B : Type} (m : M O A) (k : A -> M O B) w :
  (m ≫= k) w =
    match result (m w) with
    | Ret a => after (steps (m w)) (k a (final (m w)))
    | Raise e => mkRun (Raise e) (final (m w)) (steps (m w))
    | Wrong => mkRun Wrong (final (m w)) (steps (m w))
    end.
Proof. reflexivity. Qed.

Lemma run_bind_ret {A B : Type} (a : A) (k : A -> M O B) w :
  (mret a ≫= k) w = k a w.
Proof. rewrite run_bind. apply after_zero. Qed.

Lemma run_bind_op {A B : Type} (a : A) (k : A -> M O B) w :
  (op a ≫= k) w = after 1 (k a w).
Proof. reflexivity. Qed.

Lemma run_bind_getattr {F B : Type} l (field : O -> F) (k : F -> M O B) w o :
  heap w !! l = Some o ->
  (getattr l field ≫= k) w = after 1 (k (field o) w).
Proof. intros Ho. rewrite run_bind. unfold getattr. rewrite Ho. reflexivity. Qed.

Lemma run_bind_getattr_unallocated {F B : Type} l (field : O -> F) (k : F -> M O B) w :
  heap w !! l = None ->
  (getattr l field ≫= k) w = mkRun Wrong w 1.
Proof. intros Ho. rewrite run_bind. unfold getattr. rewrite Ho. reflexivity. Qed.

Lemma run_bind_setattr {B : Type} l (upd : O -> O) (k : unit -> M O B) w o :
  heap w !! l = Some o ->
  (setattr l upd ≫= k) w =
    after 1 (k tt (mkWorld (<[l := upd o]> (heap w)) (stdout w))).
Proof. intros Ho. rewrite run_bind. unfold setattr. rewrite Ho. reflexivity. Qed.

Lemma run_bind_subscript {A B : Type} (xs : list A) (i : Z) (k : A -> M O B) w :
  (subscript xs i ≫= k) w =
    match getitem xs i with
    | inr x => after 1 (k x w)
    | inl e => mkRun (Raise e) w 1
    end.
Proof.
  rewrite run_bind. unfold subscript.
  destruct (getitem xs i); reflexivity.
Qed.

Lemma run_bind_alloc {B : Type} (o : O) (k : loc -> M O B) w :
  (alloc o ≫= k) w =
    after 1 (k (length (heap w)) (mkWorld (heap w ++ [o]) (stdout w))).
Proof. reflexivity. Qed.

Lemma run_bind_assoc {A B C : Type} (m : M O A) (f : A -> M O B) (g : B -> M O C) w :
  ((m ≫= f) ≫= g) w = (m ≫= (fun a => f a ≫= g)) w.
Proof.
  rewrite (run_bind (m ≫= f)), (run_bind m f), (run_bind m).
  destruct (result (m w)) as [a | e |]; [| reflexivity | reflexivity].
  rewrite result_after, final_after, steps_after, (run_bind (f a) g).
  destruct (result (f a (final (m w)))) as [b | e |]; unfold after; simpl;
    f_equal; lia.
Qed.

(** The object just allocated is found at its reference, and the
    objects that were there before are found unchanged. *)
Lemma lookup_alloc_new (h : list O) (o : O) : (h ++ [o]) !! length h = Some o.
Proof. rewrite lookup_app_r by lia. rewrite Nat.sub_diag. reflexivity. Qed.

Lemma lookup_alloc_old (h : list O) (o o' : O) l :
  h !! l = Some o' -> (h ++ [o]) !! l = Some o'.
Proof. intros Hl. rewrite lookup_app_l; [exact Hl | eapply lookup_lt_Some, Hl]. Qed.

Lemma lookup_update_same (h : list O) (o o' : O) l :
  h !! l = Some o -> <[l := o']> h !! l = Some o'.
Proof. intros Hl. apply list_lookup_insert_eq. eapply lookup_lt_Some, Hl. Qed.
End Running.

(** ** One call of [_generate], as a function of the object it finds *)

Module FakeFacts.
Import FakeChatModel.

Lemma fake_generate_run w self m msgs st rm kw :
  heap w !! self = Some m ->
  _generate self msgs st rm kw w =
    match getitem (responses m) (idx m) with
    | inr msg => mkRun (Ret (reply msg))
                   (mkWorld (<[self := advance m]> (heap w)) (stdout w)) 9%nat
    | inl e => mkRun (Raise e) w 3%nat
    end.
Proof.
  intros Hm. unfold _generate.
  rewrite (run_bind_getattr _ _ _ _ _ Hm), (run_bind_getattr _ _ _ _ _ Hm).
  rewrite run_bind_subscript.
  destruct (getitem (responses m) (idx m)) as [e | msg]; [reflexivity |].
  rewrite run_bind_op, (run_bind_getattr _ _ _ _ _ Hm), run_bind_op.
  rewrite (run_bind_setattr _ _ _ _ _ Hm), run_bind_op.
  reflexivity.
Qed.

Lemma fake_generate_unallocated w self msgs st rm kw :
  heap w !! self = None ->
  _generate self msgs st rm kw w = mkRun Wrong w 1%nat.
Proof.
  intros Hm. unfold _generate.
  apply (run_bind_getattr_unallocated _ _ _ _ Hm).
Qed.

Lemma fake_in_script w self m msgs st rm kw :
  heap w !! self = Some m -> 0 <= idx m < len (responses m) ->
  exists x, responses m !! Z.to_nat (idx m) = Some x /\
    _generate self msgs st rm kw w
      = mkRun (Ret (reply x)) (mkWorld (<[self := advance m]> (heap w)) (stdout w)) 9%nat.
Proof.
  intros Hm Hin. destruct (getitem_in_range _ _ Hin) as (x & Hx & Hget).
  exists x. split; [exact Hx |].
  rewrite (fake_generate_run _ _ _ _ _ _ _ Hm), Hget. reflexivity.
Qed.

Lemma fake_past_end w self m msgs st rm kw :
  heap w !! self = Some m -> len (responses m) <= idx m ->
  _generate self msgs st rm kw w = mkRun (Raise IndexError) w 3%nat.
Proof.
  intros Hm Hout.
  rewrite (fake_generate_run _ _ _ _ _ _ _ Hm), (getitem_past_end _ _ Hout).
  reflexivity.
Qed.

(** Whatever the object, a call either returns and leaves the object
    advanced, or raises IndexError and leaves the world as it was. *)
Lemma fake_cases w self m msgs st rm kw :
  heap w !! self = Some m ->
  (exists x, _generate self msgs st rm kw w
     = mkRun (Ret (reply x)) (mkWorld (<[self := advance m]> (heap w)) (stdout w)) 9%nat)
  \/ _generate self msgs st rm kw w = mkRun (Raise IndexError) w 3%nat.
Proof.
  intros Hm. rewrite (fake_generate_run _ _ _ _ _ _ _ Hm).
  destruct (getitem (responses m) (idx m)) as [[] | x]; [right | left; exists x];
    reflexivity.
Qed.

End FakeFacts.

Module MockFacts.
Import MockChatModel.

Lemma mock_generate_run w self m msgs st rm kw :
  heap w !! self = Some m ->
  _generate self msgs st rm kw w =
    if current_index m <? len (responses m) then
      match getitem (responses m) (current_index m) with
      | inr r => mkRun (Ret (reply r))
                   (mkWorld (<[self := advance m]> (heap w)) (stdout w)) 14%nat
      | inl e => mkRun (Raise e) w 7%nat
      end
    else mkRun (Ret (reply fallback)) w 9%nat.
Proof.
  intros Hm. unfold _generate.
  rewrite (run_bind_getattr _ _ _ _ _ Hm), (run_bind_getattr _ _ _ _ _ Hm).
  rewrite !run_bind_op.
  destruct (current_index m <? len (responses m)).
  - rewrite run_bind_assoc, (run_bind_getattr _ _ _ _ _ Hm).
    rewrite run_bind_assoc, (run_bind_getattr _ _ _ _ _ Hm).
    rewrite run_bind_assoc, run_bind_subscript.
    destruct (getitem (responses m) (current_index m)) as [e | r]; [reflexivity |].
    rewrite run_bind_assoc, (run_bind_getattr _ _ _ _ _ Hm).
    rewrite run_bind_assoc, run_bind_op.
    rewrite run_bind_assoc, (run_bind_setattr _ _ _ _ _ Hm).
    rewrite run_bind_ret, !run_bind_op.
    reflexivity.
  - rewrite !run_bind_op. reflexivity.
Qed.

Lemma mock_generate_unallocated w self msgs st rm kw :
  heap w !! self = None ->
  _generate self msgs st rm kw w = mkRun Wrong w 1%nat.
Proof.
  intros Hm. unfold _generate.
  apply (run_bind_getattr_unallocated _ _ _ _ Hm).
Qed.

Lemma mock_in_script w self m msgs st rm kw :
  heap w !! self = Some m -> 0 <= current_index m < len (responses m) ->
  exists x, responses m !! Z.to_nat (current_index m) = Some x /\
    _generate self msgs st rm kw w
      = mkRun (Ret (reply x)) (mkWorld (<[self := advance m]> (heap w)) (stdout w)) 14%nat.
Proof.
  intros Hm Hin. destruct (getitem_in_range _ _ Hin) as (x & Hx & Hget).
  exists x. split; [exact Hx |].
  rewrite (mock_generate_run _ _ _ _ _ _ _ Hm), Hget.
  destruct (Z.ltb_spec (current_index m) (len (responses m))); [reflexivity | lia].
Qed.

Lemma mock_past_end w self m msgs st rm kw :
  heap w !! self = Some m -> len (responses m) <= current_index m ->
  _generate self msgs st rm kw w = mkRun (Ret (reply fallback)) w 9%nat.
Proof.
  intros Hm Hout. rewrite (mock_generate_run _ _ _ _ _ _ _ Hm).
  destruct (Z.ltb_spec (current_index m) (len (responses m))); [lia | reflexivity].
Qed.

Lemma mock_cases w self m msgs st rm kw :
  heap w !! self = Some m ->
  (exists x, _generate self msgs st rm kw w
     = mkRun (Ret (reply x)) (mkWorld (<[self := advance m]> (heap w)) (stdout w)) 14%nat)
  \/ _generate self msgs st rm kw w = mkRun (Raise IndexError) w 7%nat
  \/ _generate self msgs st rm kw w = mkRun (Ret (reply fallback)) w 9%nat.
Proof.
  intros Hm. rewrite (mock_generate_run _ _ _ _ _ _ _ Hm).
  destruct (current_index m <? len (responses m)); [| right; right; reflexivity].
  destruct (getitem (responses m) (current_index m)) as [[] | x];
    [right; left | left; exists x]; reflexivity.
Qed.

End MockFacts.

(** ** Replaying a script: what both models share

    Both models are a cursor into a script.  A call on a model whose
    cursor points at a response returns it and moves the cursor by one; a
    call on a model whose cursor is past the end leaves the world as it
    is and ends the way the variant ends an exhausted script.  The
    lemmas of this section follow from these two facts alone. *)

Section Replay.
Context {O R : Type}.
Variable _generate :
  loc -> list BaseMessage -> option (list string) ->
  option CallbackManagerForLLMRun -> list (string * PyVal) -> M O ChatResult.
Variables (cursor : O -> Z) (script : O -> list R) (advance : O -> O).
Variables (wrap : R -> ChatResult) (exhausted : PyExn + ChatResult).

Hypothesis cursor_advance : forall m, cursor (advance m) = cursor m + 1.
Hypothesis script_advance : forall m, script (advance m) = script m.
Hypothesis call_in_script : forall w self m c (i : nat) x,
  heap w !! self = Some m -> cursor m = Z.of_nat i -> script m !! i = Some x ->
  result (attempt (invoke _generate (Model self) c) w) = Ret (inr (wrap x)) /\
  final (attempt (invoke _generate (Model self) c) w)
    = mkWorld (<[self := advance m]> (heap w)) (stdout w).
Hypothesis call_past_end : forall w self m c (i : nat),
  heap w !! self = Some m -> cursor m = Z.of_nat i -> script m !! i = None ->
  result (attempt (invoke _generate (Model self) c) w) = Ret exhausted /\
  final (attempt (invoke _generate (Model self) c) w) = w.

Lemma play_nil (w : World O) :
  play _generate [] w = mkRun (Ret []) w 0.
Proof. reflexivity. Qed.

Lemma play_cons r c script' (w : World O) o os :
  result (attempt (invoke _generate r c) w) = Ret o ->
  result (play _generate script' (final (attempt (invoke _generate r c) w))) = Ret os ->
  result (play _generate ((r, c) :: script') w) = Ret (o :: os) /\
  final (play _generate ((r, c) :: script') w)
    = final (play _generate script' (final (attempt (invoke _generate r c) w))).
Proof.
  intros Ho Hos. cbn [play]. rewrite run_bind, Ho, result_after, final_after.
  rewrite run_bind, Hos, result_after, final_after. split; reflexivity.
Qed.

Lemma cursor_iter_advance n m :
  cursor (Nat.iter n advance m) = cursor m + Z.of_nat n.
Proof.
  induction n as [| n IH]; [simpl; lia |].
  rewrite Nat.iter_succ, cursor_advance, IH. lia.
Qed.

Lemma script_iter_advance n m : script (Nat.iter n advance m) = script m.
Proof.
  induction n as [| n IH]; [reflexivity |].
  rewrite Nat.iter_succ, script_advance. exact IH.
Qed.

Lemma replayed_in_script (rs : list R) i k x :
  rs !! i = Some x ->
  replayed wrap exhausted rs i (S k)
    = inr (wrap x) :: replayed wrap exhausted rs (S i) k.
Proof.
  intros Hx. unfold replayed.
  pose proof (lookup_lt_Some _ _ _ Hx) as Hlt.
  rewrite (drop_S _ _ _ Hx). cbn [take fmap list_fmap].
  replace (S k - (length rs - i))%nat with (k - (length rs - S i))%nat by lia.
  reflexivity.
Qed.

Lemma replayed_past_end (rs : list R) i k :
  rs !! i = None ->
  replayed wrap exhausted rs i (S k)
    = exhausted :: replayed wrap exhausted rs i k.
Proof.
  intros Hx. unfold replayed. apply lookup_ge_None in Hx.
  rewrite drop_ge by lia. rewrite !take_nil.
  replace (length rs - i)%nat with 0%nat by lia.
  rewrite !Nat.sub_0_r. reflexivity.
Qed.

(** [k] calls in a row on the model at [self], from cursor [i]. *)
Lemma calls_from cs : forall (w : World O) self m (i : nat),
  heap w !! self = Some m -> cursor m = Z.of_nat i ->
  result (calls _generate (Model self) cs w)
    = Ret (replayed wrap exhausted (script m) i (length cs)) /\
  final (calls _generate (Model self) cs w)
    = mkWorld
        (<[self := Nat.iter (min (length cs) (length (script m) - i)) advance m]>
           (heap w))
        (stdout w).
Proof.
  unfold calls. induction cs as [| c cs IH]; intros w self m i Hm Hi.
  - cbn [fmap list_fmap length]. rewrite play_nil. cbn [result final].
    rewrite Nat.min_0_l. change (Nat.iter 0 advance m) with m.
    split.
    + unfold replayed. rewrite take_0. reflexivity.
    + rewrite (list_insert_id _ _ _ Hm). destruct w; reflexivity.
  - cbn [fmap list_fmap length].
    destruct (script m !! i) as [x |] eqn:Hx.
    + destruct (call_in_script w self m c i x Hm Hi Hx) as [Hres Hfin].
      pose proof (lookup_lt_Some _ _ _ Hx) as Hlt.
      assert (Hm' : heap (final (attempt (invoke _generate (Model self) c) w)) !! self
                    = Some (advance m)).
      { rewrite Hfin. cbn [heap]. apply (lookup_update_same _ _ _ _ Hm). }
      assert (Hi' : cursor (advance m) = Z.of_nat (S i)).
      { rewrite cursor_advance, Hi. lia. }
      destruct (IH _ self (advance m) (S i) Hm' Hi') as [IHres IHfin].
      rewrite script_advance in IHres, IHfin.
      destruct (play_cons (Model self) c (pair (Model self) <$> cs) w _ _ Hres IHres)
        as [Pres Pfin].
      split.
      * rewrite Pres, (replayed_in_script _ _ _ _ Hx). reflexivity.
      * rewrite Pfin, IHfin, Hfin. cbn [heap stdout].
        rewrite list_insert_insert_eq.
        replace (min (S (length cs)) (length (script m) - i))
          with (S (min (length cs) (length (script m) - S i))) by lia.
        rewrite Nat.iter_succ_r. reflexivity.
    + destruct (call_past_end w self m c i Hm Hi Hx) as [Hres Hfin].
      assert (Hm' : heap (final (attempt (invoke _generate (Model self) c) w)) !! self
                    = Some m) by (rewrite Hfin; exact Hm).
      destruct (IH _ self m i Hm' Hi) as [IHres IHfin].
      destruct (play_cons (Model self) c (pair (Model self) <$> cs) w _ _ Hres IHres)
        as [Pres Pfin].
      apply lookup_ge_None in Hx.
      split.
      * rewrite Pres, (replayed_past_end _ _ _ (proj2 (lookup_ge_None _ _) Hx)).
        reflexivity.
      * rewrite Pfin, IHfin, Hfin.
        replace (length (script m) - i)%nat with 0%nat by lia.
        rewrite !Nat.min_0_r. reflexivity.
Qed.

(** The same on a model that has just been allocated with cursor 0. *)
Lemma fresh_calls m0 cs (w : World O) :
  cursor m0 = 0 ->
  result ((a ← alloc m0; calls _generate (Model a) cs) w)
    = Ret (replayed wrap exhausted (script m0) 0 (length cs)) /\
  final ((a ← alloc m0; calls _generate (Model a) cs) w)
    = mkWorld
        (heap w ++ [Nat.iter (min (length cs) (length (script m0))) advance m0])
        (stdout w).
Proof.
  intros H0. rewrite run_bind_alloc, result_after, final_after.
  destruct (calls_from cs (mkWorld (heap w ++ [m0]) (stdout w)) (length (heap w)) m0 0%nat)
    as [Hres Hfin]; [apply lookup_alloc_new | rewrite H0; reflexivity |].
  split; [exact Hres |].
  rewrite Hfin. cbn [heap stdout]. rewrite Nat.sub_0_r.
  rewrite insert_app_r_alt by lia. rewrite Nat.sub_diag. reflexivity.
Qed.

(** Reading the cursor back after [k] calls on a new model. *)
Lemma fresh_cursor m0 cs (w : World O) :
  cursor m0 = 0 ->
  result ((a ← alloc m0; calls _generate (Model a) cs;; getattr a cursor) w)
    = Ret (Z.of_nat (min (length cs) (length (script m0)))).
Proof.
  intros H0. rewrite run_bind_alloc, result_after.
  destruct (calls_from cs (mkWorld (heap w ++ [m0]) (stdout w)) (length (heap w)) m0 0%nat)
    as [Hres Hfin]; [apply lookup_alloc_new | rewrite H0; reflexivity |].
  rewrite run_bind, Hres, result_after, Hfin. unfold getattr. cbn [heap].
  rewrite (lookup_update_same _ m0) by apply lookup_alloc_new.
  cbn [result]. rewrite cursor_iter_advance, H0, Nat.sub_0_r. reflexivity.
Qed.

(** On a script of [N] responses, [N] calls return them all, and
    what [k] calls return depends on [k] alone. *)
Lemma replayed_all (rs : list R) :
  replayed wrap exhausted rs 0 (length rs) = (inr ∘ wrap <$> rs).
Proof.
  unfold replayed. rewrite drop_0, Nat.sub_0_r, Nat.sub_diag, take_ge by lia.
  apply app_nil_r.
Qed.

(** Two models side by side, called in turn. *)
Lemma two_models mA mB c1 c2 c3 x y z (w : World O) :
  cursor mA = 0 -> script mA = [x; y] -> cursor mB = 0 -> script mB = [z] ->
  result ((a ← alloc mA; b ← alloc mB;
           play _generate [(Model a, c1); (Model b, c2); (Model a, c3)]) w)
    = Ret [inr (wrap x); inr (wrap z); inr (wrap y)].
Proof.
  intros HcA HsA HcB HsB.
  rewrite run_bind_alloc, result_after, run_bind_alloc, result_after. cbn [heap stdout].
  set (a := length (heap w)). set (b := length (heap w ++ [mA])).
  set (h := (heap w ++ [mA]) ++ [mB]).
  assert (Hab : a <> b) by (subst a b; rewrite length_app; simpl; lia).
  assert (Ha : h !! a = Some mA).
  { subst h a. apply (lookup_alloc_old _ _ mA), lookup_alloc_new. }
  assert (Hb : h !! b = Some mB) by (subst h b; apply lookup_alloc_new).
  destruct (call_in_script (mkWorld h (stdout w)) a mA c1 0%nat x Ha)
    as [Hres1 Hfin1]; [rewrite HcA; reflexivity | rewrite HsA; reflexivity |].
  cbn [heap stdout] in Hfin1.
  assert (Hb1 : <[a := advance mA]> h !! b = Some mB)
    by (rewrite list_lookup_insert_ne by exact Hab; exact Hb).
  destruct (call_in_script (mkWorld (<[a := advance mA]> h) (stdout w)) b mB c2 0%nat z Hb1)
    as [Hres2 Hfin2]; [rewrite HcB; reflexivity | rewrite HsB; reflexivity |].
  cbn [heap stdout] in Hfin2.
  assert (Ha2 : <[b := advance mB]> (<[a := advance mA]> h) !! a = Some (advance mA)).
  { rewrite list_lookup_insert_ne by (intros E; apply Hab; symmetry; exact E).
    apply (lookup_update_same _ mA), Ha. }
  destruct (call_in_script
              (mkWorld (<[b := advance mB]> (<[a := advance mA]> h)) (stdout w))
              a (advance mA) c3 1%nat y Ha2) as [Hres3 _];
    [rewrite cursor_advance, HcA; reflexivity
    | rewrite script_advance, HsA; reflexivity |].
  destruct (play_cons (Model a) c3 [] _ _ [] Hres3 eq_refl) as [P3 _].
  rewrite <- Hfin2 in P3.
  destruct (play_cons (Model b) c2 [(Model a, c3)] _ _ _ Hres2 P3) as [P2 _].
  rewrite <- Hfin1 in P2.
  destruct (play_cons (Model a) c1 [(Model b, c2); (Model a, c3)] _ _ _ Hres1 P2)
    as [P1 _].
  exact P1.
Qed.

Lemma replayed_one_more (rs : list R) :
  replayed wrap exhausted rs 0 (S (length rs)) = (inr ∘ wrap <$> rs) ++ [exhausted].
Proof.
  unfold replayed. rewrite drop_0, Nat.sub_0_r, take_ge by lia.
  replace (S (length rs) - length rs)%nat with 1%nat by lia. reflexivity.
Qed.
End Replay.

(** ** The two models replay their scripts *)

Module FakeReplay.
Import FakeChatModel.

Lemma fake_call_in_script w self m c (i : nat) x :
  heap w !! self = Some m -> idx m = Z.of_nat i -> responses m !! i = Some x ->
  result (attempt (invoke _generate (Model self) c) w) = Ret (inr (reply x)) /\
  final (attempt (invoke _generate (Model self) c) w)
    = mkWorld (<[self := advance m]> (heap w)) (stdout w).
Proof.
  intros Hm Hi Hx. unfold attempt, invoke.
  rewrite (FakeFacts.fake_generate_run _ _ _ _ _ _ _ Hm), Hi, getitem_nat, Hx.
  split; reflexivity.
Qed.

Lemma fake_call_past_end w self m c (i : nat) :
  heap w !! self = Some m -> idx m = Z.of_nat i -> responses m !! i = None ->
  result (attempt (invoke _generate (Model self) c) w) = Ret (inl IndexError) /\
  final (attempt (invoke _generate (Model self) c) w) = w.
Proof.
  intros Hm Hi Hx. unfold attempt, invoke.
  rewrite (FakeFacts.fake_generate_run _ _ _ _ _ _ _ Hm), Hi, getitem_nat, Hx.
  split; reflexivity.
Qed.

Lemma fake_session w rs cs :
  result ((a ← new rs; calls _generate (Model a) cs) w)
    = Ret (replayed reply exhausted rs 0 (length cs)).
Proof.
  apply (fresh_calls _generate idx responses advance reply exhausted
           (fun _ => eq_refl) (fun _ => eq_refl) fake_call_in_script fake_call_past_end
           {| idx := 0; responses := rs |} cs w eq_refl).
Qed.

Lemma fake_session_cursor w rs cs :
  result ((a ← new rs; calls _generate (Model a) cs;; getattr a idx) w)
    = Ret (Z.of_nat (min (length cs) (length rs))).
Proof.
  apply (fresh_cursor _generate idx responses advance reply exhausted
           (fun _ => eq_refl) (fun _ => eq_refl) fake_call_in_script fake_call_past_end
           {| idx := 0; responses := rs |} cs w eq_refl).
Qed.

End FakeReplay.

Module MockReplay.
Import MockChatModel.

Lemma mock_call_in_script w self m c (i : nat) x :
  heap w !! self = Some m -> current_index m = Z.of_nat i ->
  responses m !! i = Some x ->
  result (attempt (invoke _generate (Model self) c) w) = Ret (inr (reply x)) /\
  final (attempt (invoke _generate (Model self) c) w)
    = mkWorld (<[self := advance m]> (heap w)) (stdout w).
Proof.
  intros Hm Hi Hx. unfold attempt, invoke.
  rewrite (MockFacts.mock_generate_run _ _ _ _ _ _ _ Hm), Hi, getitem_nat, Hx.
  pose proof (lookup_lt_Some _ _ _ Hx) as Hlt.
  destruct (Z.ltb_spec (Z.of_nat i) (len (responses m))) as [_ | Hge];
    [split; reflexivity | unfold len in Hge; lia].
Qed.

Lemma mock_call_past_end w self m c (i : nat) :
  heap w !! self = Some m -> current_index m = Z.of_nat i ->
  responses m !! i = None ->
  result (attempt (invoke _generate (Model self) c) w) = Ret exhausted /\
  final (attempt (invoke _generate (Model self) c) w) = w.
Proof.
  intros Hm Hi Hx. unfold attempt, invoke.
  rewrite (MockFacts.mock_generate_run _ _ _ _ _ _ _ Hm), Hi.
  apply lookup_ge_None in Hx.
  destruct (Z.ltb_spec (Z.of_nat i) (len (responses m))) as [Hlt | _];
    [unfold len in Hlt; lia | split; reflexivity].
Qed.

Lemma mock_session w rs cs :
  result ((a ← __init__ rs; calls _generate (Model a) cs) w)
    = Ret (replayed reply exhausted rs 0 (length cs)).
Proof.
  apply (fresh_calls _generate current_index responses advance reply exhausted
           (fun _ => eq_refl) (fun _ => eq_refl) mock_call_in_script mock_call_past_end
           {| responses := rs; current_index := 0 |} cs w eq_refl).
Qed.

Lemma mock_session_cursor w rs cs :
  result ((a ← __init__ rs; calls _generate (Model a) cs;; getattr a current_index) w)
    = Ret (Z.of_nat (min (length cs) (length rs))).
Proof.
  apply (fresh_cursor _generate current_index responses advance reply exhausted
           (fun _ => eq_refl) (fun _ => eq_refl) mock_call_in_script mock_call_past_end
           {| responses := rs; current_index := 0 |} cs w eq_refl).
Qed.

End MockReplay.

(** ** The replay contract *)

(** Claim C1. On a newly constructed model with a script of N responses, N
    calls of [_generate] return the N responses in order, each once,
    whatever arguments the calls are given: the fake model returns each
    message as it is, the mock model each string as the content of an AI
    message.  More generally, what any number of calls returns depends on
    how many they are and not on their arguments. *)
Theorem replay_in_order :
  (forall (w : World FakeChatModel.t) (rs : list BaseMessage) (cs : list Call),
     length cs = length rs ->
     result ((a ← FakeChatModel.new rs;
              calls FakeChatModel._generate (Model a) cs) w)
       = Ret (inr ∘ FakeChatModel.reply <$> rs))
  /\ (forall (w : World MockChatModel.t) (rs : list string) (cs : list Call),
     length cs = length rs ->
     result ((a ← MockChatModel.__init__ rs;
              calls MockChatModel._generate (Model a) cs) w)
       = Ret (inr ∘ MockChatModel.reply <$> rs))
  /\ (forall (w : World FakeChatModel.t) (rs : list BaseMessage) (cs cs' : list Call),
     length cs = length cs' ->
     result ((a ← FakeChatModel.new rs;
              calls FakeChatModel._generate (Model a) cs) w)
       = result ((a ← FakeChatModel.new rs;
                  calls FakeChatModel._generate (Model a) cs') w))
  /\ (forall (w : World MockChatModel.t) (rs : list string) (cs cs' : list Call),
     length cs = length cs' ->
     result ((a ← MockChatModel.__init__ rs;
              calls MockChatModel._generate (Model a) cs) w)
       = result ((a ← MockChatModel.__init__ rs;
                  calls MockChatModel._generate (Model a) cs') w)).
Proof.
  repeat split.
  - intros w rs cs Hlen. rewrite FakeReplay.fake_session, Hlen, replayed_all. reflexivity.
  - intros w rs cs Hlen. rewrite MockReplay.mock_session, Hlen, replayed_all. reflexivity.
  - intros w rs cs cs' Hlen. rewrite !FakeReplay.fake_session, Hlen. reflexivity.
  - intros w rs cs cs' Hlen. rewrite !MockReplay.mock_session, Hlen. reflexivity.
Qed.

Lemma replay_in_order_witness :
  result ((a ← FakeChatModel.new [Sample.x; Sample.y];
           calls FakeChatModel._generate (Model a) [Sample.h1; Sample.h2]) Sample.fake0)
    = Ret [inr (FakeChatModel.reply Sample.x); inr (FakeChatModel.reply Sample.y)]
  /\ result ((a ← MockChatModel.__init__ ["x"; "y"]%string;
              calls MockChatModel._generate (Model a) [Sample.h3; Sample.h1]) Sample.mock0)
    = Ret [inr (MockChatModel.reply "x"); inr (MockChatModel.reply "y")]
  /\ result ((a ← FakeChatModel.new [Sample.x; Sample.y];
              calls FakeChatModel._generate (Model a) [Sample.h1; Sample.h2]) Sample.fake0)
    = result ((a ← FakeChatModel.new [Sample.x; Sample.y];
               calls FakeChatModel._generate (Model a) [Sample.h3; Sample.h3]) Sample.fake0)
  /\ result ((a ← MockChatModel.__init__ ["x"; "y"]%string;
              calls MockChatModel._generate (Model a) [Sample.h1]) Sample.mock0)
    = result ((a ← MockChatModel.__init__ ["x"; "y"]%string;
               calls MockChatModel._generate (Model a) [Sample.h2]) Sample.mock0).
Proof.
  destruct replay_in_order as (HF & HM & HF' & HM').
  split; [| split; [| split]].
  - apply (HF Sample.fake0 [Sample.x; Sample.y] [Sample.h1; Sample.h2]). reflexivity.
  - apply (HM Sample.mock0 ["x"; "y"]%string [Sample.h3; Sample.h1]). reflexivity.
  - apply (HF' Sample.fake0 [Sample.x; Sample.y]
             [Sample.h1; Sample.h2] [Sample.h3; Sample.h3]). reflexivity.
  - apply (HM' Sample.mock0 ["x"; "y"]%string [Sample.h1] [Sample.h2]). reflexivity.
Defined.

(** Claim C2. On a newly constructed model with a script of N responses, the
    call made after N calls does not return any response again: on the
    fake model it raises IndexError (its exhausted-script error), on the
    mock model it returns the fallback sentence as an AI message.  The
    caller sees the N responses followed by that outcome. *)
Theorem one_call_too_many :
  (forall (w : World FakeChatModel.t) (rs : list BaseMessage) (cs : list Call) (c : Call),
     length cs = length rs ->
     result ((a ← FakeChatModel.new rs;
              calls FakeChatModel._generate (Model a) (cs ++ [c])) w)
       = Ret ((inr ∘ FakeChatModel.reply <$> rs) ++ [inl IndexError]))
  /\ (forall (w : World MockChatModel.t) (rs : list string) (cs : list Call) (c : Call),
     length cs = length rs ->
     result ((a ← MockChatModel.__init__ rs;
              calls MockChatModel._generate (Model a) (cs ++ [c])) w)
       = Ret ((inr ∘ MockChatModel.reply <$> rs)
              ++ [inr (mkChatResult
                         [mkChatGeneration
                            (AIMessage "I don't have more responses configured." [])])])).
Proof.
  split.
  - intros w rs cs c Hlen.
    rewrite FakeReplay.fake_session, length_app, Hlen, Nat.add_1_r, replayed_one_more.
    reflexivity.
  - intros w rs cs c Hlen.
    rewrite MockReplay.mock_session, length_app, Hlen, Nat.add_1_r, replayed_one_more.
    reflexivity.
Qed.

Lemma one_call_too_many_witness :
  result ((a ← FakeChatModel.new [Sample.x; Sample.y];
           calls FakeChatModel._generate (Model a)
             ([Sample.h1; Sample.h2] ++ [Sample.h3])) Sample.fake0)
    = Ret [inr (FakeChatModel.reply Sample.x); inr (FakeChatModel.reply Sample.y);
           inl IndexError]
  /\ result ((a ← MockChatModel.__init__ ["x"; "y"]%string;
              calls MockChatModel._generate (Model a)
                ([Sample.h1; Sample.h2] ++ [Sample.h3])) Sample.mock0)
    = Ret [inr (MockChatModel.reply "x"); inr (MockChatModel.reply "y");
           inr (MockChatModel.reply "I don't have more responses configured.")].
Proof.
  destruct one_call_too_many as [HF HM]. split.
  - apply (HF Sample.fake0 [Sample.x; Sample.y] [Sample.h1; Sample.h2] Sample.h3).
    reflexivity.
  - apply (HM Sample.mock0 ["x"; "y"]%string [Sample.h1; Sample.h2] Sample.h3).
    reflexivity.
Defined.

(** Claim C3, as the code has it.  The cursor of a newly constructed model is 0
    and a call never lowers it.  A call made while the cursor is inside
    the script returns the response at the cursor and moves the cursor by
    exactly one; a call made once the script has run out leaves the
    cursor where it is.  So after [k] calls on a new model with N
    responses the cursor is [min k N]: it equals the number of calls
    that returned a response of the script. *)
Theorem cursor_discipline :
  (forall (w : World FakeChatModel.t) (rs : list BaseMessage) (cs : list Call),
     result ((a ← FakeChatModel.new rs;
              calls FakeChatModel._generate (Model a) cs;;
              getattr a FakeChatModel.idx) w)
       = Ret (Z.of_nat (min (length cs) (length rs))))
  /\ (forall (w : World FakeChatModel.t) self m (c : Call),
     heap w !! self = Some m ->
     let r := FakeChatModel._generate self (messages c) (stop c) (run_manager c)
                (kwargs c) w in
     exists m', heap (final r) !! self = Some m' /\
       FakeChatModel.idx m <= FakeChatModel.idx m' /\
       (0 <= FakeChatModel.idx m < len (FakeChatModel.responses m) ->
          exists x,
            FakeChatModel.responses m !! Z.to_nat (FakeChatModel.idx m) = Some x /\
            result r = Ret (FakeChatModel.reply x) /\
            FakeChatModel.idx m' = FakeChatModel.idx m + 1) /\
       (len (FakeChatModel.responses m) <= FakeChatModel.idx m ->
          FakeChatModel.idx m' = FakeChatModel.idx m))
  /\ (forall (w : World MockChatModel.t) (rs : list string) (cs : list Call),
     result ((a ← MockChatModel.__init__ rs;
              calls MockChatModel._generate (Model a) cs;;
              getattr a MockChatModel.current_index) w)
       = Ret (Z.of_nat (min (length cs) (length rs))))
  /\ (forall (w : World MockChatModel.t) self m (c : Call),
     heap w !! self = Some m ->
     let r := MockChatModel._generate self (messages c) (stop c) (run_manager c)
                (kwargs c) w in
     exists m', heap (final r) !! self = Some m' /\
       MockChatModel.current_index m <= MockChatModel.current_index m' /\
       (0 <= MockChatModel.current_index m < len (MockChatModel.responses m) ->
          exists x,
            MockChatModel.responses m !! Z.to_nat (MockChatModel.current_index m)
              = Some x /\
            result r = Ret (MockChatModel.reply x) /\
            MockChatModel.current_index m' = MockChatModel.current_index m + 1) /\
       (len (MockChatModel.responses m) <= MockChatModel.current_index m ->
          MockChatModel.current_index m' = MockChatModel.current_index m)).
Proof.
  split; [exact FakeReplay.fake_session_cursor |].
  split; [| split; [exact MockReplay.mock_session_cursor |]].
  - intros w self m c Hm r. subst r.
    destruct (FakeFacts.fake_cases w self m (messages c) (stop c) (run_manager c) (kwargs c) Hm)
      as [[x Hrun] | Hrun].
    + exists (FakeChatModel.advance m). rewrite Hrun. cbn [final heap result].
      split; [apply (lookup_update_same _ _ _ _ Hm) |].
      split; [cbn; lia |]. split.
      * intros Hin.
        destruct (FakeFacts.fake_in_script w self m (messages c) (stop c) (run_manager c)
                    (kwargs c) Hm Hin) as (x' & Hx' & Hrun').
        exists x'. rewrite Hrun in Hrun'. injection Hrun' as Hxx.
        split; [exact Hx' |]. split; [rewrite Hxx; reflexivity | reflexivity].
      * intros Hout.
        rewrite (FakeFacts.fake_past_end w self m _ _ _ _ Hm Hout) in Hrun. discriminate.
    + exists m. rewrite Hrun. cbn [final result].
      split; [exact Hm |]. split; [lia |]. split; [| reflexivity].
      intros Hin.
      destruct (FakeFacts.fake_in_script w self m (messages c) (stop c) (run_manager c)
                  (kwargs c) Hm Hin) as (x' & _ & Hrun').
      rewrite Hrun in Hrun'. discriminate.
  - intros w self m c Hm r. subst r.
    destruct (MockFacts.mock_cases w self m (messages c) (stop c) (run_manager c) (kwargs c) Hm)
      as [[x Hrun] | [Hrun | Hrun]].
    + exists (MockChatModel.advance m). rewrite Hrun. cbn [final heap result].
      split; [apply (lookup_update_same _ _ _ _ Hm) |].
      split; [cbn; lia |]. split.
      * intros Hin.
        destruct (MockFacts.mock_in_script w self m (messages c) (stop c) (run_manager c)
                    (kwargs c) Hm Hin) as (x' & Hx' & Hrun').
        exists x'. rewrite Hrun in Hrun'. injection Hrun' as Hxx.
        split; [exact Hx' |]. split; [rewrite Hxx; reflexivity | reflexivity].
      * intros Hout.
        rewrite (MockFacts.mock_past_end w self m _ _ _ _ Hm Hout) in Hrun. discriminate.
    + exists m. rewrite Hrun. cbn [final result].
      split; [exact Hm |]. split; [lia |]. split; [| reflexivity].
      intros Hin.
      destruct (MockFacts.mock_in_script w self m (messages c) (stop c) (run_manager c)
                  (kwargs c) Hm Hin) as (x' & _ & Hrun').
      rewrite Hrun in Hrun'. discriminate.
    + exists m. rewrite Hrun. cbn [final result].
      split; [exact Hm |]. split; [lia |]. split; [| reflexivity].
      intros Hin.
      destruct (MockFacts.mock_in_script w self m (messages c) (stop c) (run_manager c)
                  (kwargs c) Hm Hin) as (x' & _ & Hrun').
      rewrite Hrun in Hrun'. discriminate.
Qed.

Lemma cursor_discipline_witness :
  (exists m', heap (final (FakeChatModel._generate 0%nat (messages Sample.h1)
                             (stop Sample.h1) (run_manager Sample.h1)
                             (kwargs Sample.h1) Sample.fake_mid)) !! 0%nat = Some m' /\
     exists x, [Sample.x; Sample.y] !! 1%nat = Some x /\
       result (FakeChatModel._generate 0%nat (messages Sample.h1) (stop Sample.h1)
                 (run_manager Sample.h1) (kwargs Sample.h1) Sample.fake_mid)
         = Ret (FakeChatModel.reply x) /\
       FakeChatModel.idx m' = 1 + 1)
  /\ (exists m', heap (final (FakeChatModel._generate 0%nat (messages Sample.h1)
                                (stop Sample.h1) (run_manager Sample.h1)
                                (kwargs Sample.h1) Sample.fake_done)) !! 0%nat = Some m' /\
     FakeChatModel.idx m' = 2)
  /\ (exists m', heap (final (MockChatModel._generate 0%nat (messages Sample.h1)
                                (stop Sample.h1) (run_manager Sample.h1)
                                (kwargs Sample.h1) Sample.mock_mid)) !! 0%nat = Some m' /\
     exists x, ["x"; "y"]%string !! 1%nat = Some x /\
       result (MockChatModel._generate 0%nat (messages Sample.h1) (stop Sample.h1)
                 (run_manager Sample.h1) (kwargs Sample.h1) Sample.mock_mid)
         = Ret (MockChatModel.reply x) /\
       MockChatModel.current_index m' = 1 + 1)
  /\ (exists m', heap (final (MockChatModel._generate 0%nat (messages Sample.h1)
                                (stop Sample.h1) (run_manager Sample.h1)
                                (kwargs Sample.h1) Sample.mock_done)) !! 0%nat = Some m' /\
     MockChatModel.current_index m' = 2).
Proof.
  destruct cursor_discipline as (_ & HF & _ & HM).
  split; [| split; [| split]].
  - destruct (HF Sample.fake_mid 0%nat (FakeChatModel.mk 1 [Sample.x; Sample.y])
                Sample.h1 eq_refl) as (m' & Hm' & _ & Hin & _).
    exists m'. split; [exact Hm' |]. apply Hin. unfold len. simpl. lia.
  - destruct (HF Sample.fake_done 0%nat (FakeChatModel.mk 2 [Sample.x; Sample.y])
                Sample.h1 eq_refl) as (m' & Hm' & _ & _ & Hout).
    exists m'. split; [exact Hm' |]. apply Hout. unfold len. simpl. lia.
  - destruct (HM Sample.mock_mid 0%nat (MockChatModel.mk ["x"; "y"]%string 1)
                Sample.h1 eq_refl) as (m' & Hm' & _ & Hin & _).
    exists m'. split; [exact Hm' |]. apply Hin. unfold len. simpl. lia.
  - destruct (HM Sample.mock_done 0%nat (MockChatModel.mk ["x"; "y"]%string 2)
                Sample.h1 eq_refl) as (m' & Hm' & _ & _ & Hout).
    exists m'. split; [exact Hm' |]. apply Hout. unfold len. simpl. lia.
Defined.

(** Claim C3 as stated fails on the mock model: with the script [["x"]], two
    calls both return normally (the second with the fallback sentence),
    and the cursor read back afterwards is 1, not 2, since the second
    call did not move it. *)
Lemma cursor_after_fallback_call :
  result ((a ← MockChatModel.__init__ ["x"%string];
           calls MockChatModel._generate (Model a) [Sample.h1; Sample.h2]) Sample.mock0)
    = Ret [inr (MockChatModel.reply "x");
           inr (MockChatModel.reply MockChatModel.fallback)]
  /\ result ((a ← MockChatModel.__init__ ["x"%string];
              calls MockChatModel._generate (Model a) [Sample.h1; Sample.h2];;
              getattr a MockChatModel.current_index) Sample.mock0)
    = Ret 1
  /\ result ((a ← MockChatModel.__init__ ["x"%string];
              calls MockChatModel._generate (Model a) [Sample.h1; Sample.h2];;
              getattr a MockChatModel.current_index) Sample.mock0)
    <> Ret 2.
Proof. split; [reflexivity | split; [reflexivity | discriminate]]. Qed.

(** Claim C4 as stated fails: constructing either model with an empty script
    returns a model; no exception is raised at construction. *)
Lemma empty_script_is_constructed :
  result (FakeChatModel.new [] Sample.fake0) = Ret 0%nat
  /\ result (MockChatModel.__init__ [] Sample.mock0) = Ret 0%nat
  /\ result (FakeChatModel.new [] Sample.fake0) <> Raise IndexError
  /\ result (MockChatModel.__init__ [] Sample.mock0) <> Raise IndexError.
Proof. repeat split; discriminate. Qed.

(** Claim C4, as the code has it.  Constructing a model with an empty script
    succeeds and yields a model with cursor 0 and no responses.  On the
    fake model the first call of [_generate] is what fails, with
    IndexError and with the world left as construction made it; on the
    mock model the first call returns the fallback sentence. *)
Theorem empty_script_fails_at_first_use :
  (forall (w : World FakeChatModel.t),
     result (FakeChatModel.new [] w) = Ret (length (heap w)) /\
     heap (final (FakeChatModel.new [] w)) !! length (heap w)
       = Some (FakeChatModel.mk 0 []))
  /\ (forall (w : World FakeChatModel.t) (c : Call),
     result ((a ← FakeChatModel.new [];
              FakeChatModel._generate a (messages c) (stop c) (run_manager c)
                (kwargs c)) w) = Raise IndexError /\
     final ((a ← FakeChatModel.new [];
             FakeChatModel._generate a (messages c) (stop c) (run_manager c)
               (kwargs c)) w) = final (FakeChatModel.new [] w))
  /\ (forall (w : World MockChatModel.t),
     result (MockChatModel.__init__ [] w) = Ret (length (heap w)) /\
     heap (final (MockChatModel.__init__ [] w)) !! length (heap w)
       = Some (MockChatModel.mk [] 0))
  /\ (forall (w : World MockChatModel.t) (c : Call),
     result ((a ← MockChatModel.__init__ [];
              MockChatModel._generate a (messages c) (stop c) (run_manager c)
                (kwargs c)) w) = Ret (MockChatModel.reply MockChatModel.fallback)).
Proof.
  split; [| split; [| split]].
  - intros w. split; [reflexivity | apply lookup_alloc_new].
  - intros w c. unfold FakeChatModel.new. rewrite run_bind_alloc, result_after, final_after.
    rewrite (FakeFacts.fake_past_end _ _ (FakeChatModel.mk 0 []));
      [split; reflexivity | apply lookup_alloc_new | unfold len; simpl; lia].
  - intros w. split; [reflexivity | apply lookup_alloc_new].
  - intros w c. unfold MockChatModel.__init__. rewrite run_bind_alloc, result_after.
    rewrite (MockFacts.mock_past_end _ _ (MockChatModel.mk [] 0));
      [reflexivity | apply lookup_alloc_new | unfold len; simpl; lia].
Qed.

(** ** Handles and other models *)

Lemma run_bind_comprehension {O A B C : Type} (f : A -> B) (l : list A)
    (k : list B -> M O C) (w : World O) :
  (comprehension f l ≫= k) w = after (length l) (k (f <$> l) w).
Proof. reflexivity. Qed.

(** A call through a binding of the fake model is the call on the model:
    [_generate] does not look at its keyword arguments. *)
Lemma fake_play_through_binding self kw script : forall w,
  play FakeChatModel._generate (through self (Binding (mkBinding self kw)) script) w
    = play FakeChatModel._generate (through self (Model self) script) w.
Proof.
  induction script as [| [b c] script IH]; intros w; [reflexivity |].
  unfold through in *. cbn [fmap list_fmap fst snd play].
  assert (Hcall :
    attempt (invoke FakeChatModel._generate
               (if b then Binding (mkBinding self kw) else Model self) c) w
    = attempt (invoke FakeChatModel._generate (if b then Model self else Model self) c) w)
    by (destruct b; reflexivity).
  rewrite (run_bind (attempt _)), Hcall.
  rewrite (run_bind (attempt (invoke _ (if b then Model self else Model self) c))).
  destruct (result _) as [o | e |]; [| reflexivity | reflexivity].
  f_equal. rewrite run_bind, IH. reflexivity.
Qed.

(** Claim C5. [bind_tools] leaves the world as it is, and the calls made after
    it, through the model or through the handle it returned and in any
    interleaving, end exactly as the same calls made on the model
    without it, and leave the same world.  The mock model returns
    itself; the fake model returns a binding of itself that carries the
    names of the tools. *)
Theorem bind_tools_keeps_replay :
  (forall (w : World FakeChatModel.t) self (tools : list ToolSpec) kw
          (script : list (bool * Call)),
     result (FakeChatModel.bind_tools self tools kw w)
       = Ret (mkBinding self
                [("tools"%string, PyList (FakeChatModel.tool_dict <$> tools))]) /\
     final (FakeChatModel.bind_tools self tools kw w) = w /\
     result ((h ← FakeChatModel.bind_tools self tools kw;
              play FakeChatModel._generate (through self (Binding h) script)) w)
       = result (play FakeChatModel._generate (through self (Model self) script) w) /\
     final ((h ← FakeChatModel.bind_tools self tools kw;
             play FakeChatModel._generate (through self (Binding h) script)) w)
       = final (play FakeChatModel._generate (through self (Model self) script) w))
  /\ (forall (w : World MockChatModel.t) self (tools : list ToolSpec) kw
             (script : list (bool * Call)),
     result (MockChatModel.bind_tools self tools kw w) = Ret self /\
     final (MockChatModel.bind_tools self tools kw w) = w /\
     result ((h ← MockChatModel.bind_tools self tools kw;
              play MockChatModel._generate (through self (Model h) script)) w)
       = result (play MockChatModel._generate (through self (Model self) script) w) /\
     final ((h ← MockChatModel.bind_tools self tools kw;
             play MockChatModel._generate (through self (Model h) script)) w)
       = final (play MockChatModel._generate (through self (Model self) script) w)).
Proof.
  split.
  - intros w self tools kw script.
    split; [reflexivity |]. split; [reflexivity |].
    unfold FakeChatModel.bind_tools, Framework.bind.
    rewrite run_bind_assoc, run_bind_comprehension, run_bind_op.
    rewrite !result_after, !final_after, fake_play_through_binding.
    split; reflexivity.
  - intros w self tools kw script.
    split; [reflexivity |]. split; [reflexivity |].
    unfold MockChatModel.bind_tools. rewrite run_bind_ret. split; reflexivity.
Qed.

(** Claim C6. Two models constructed one after the other, the first with the
    script [X; Y] and the second with [Z], and called in the order first,
    second, first, return X, then Z, then Y, whatever the arguments of
    the calls.  A call on a model leaves every other object of the store
    as it was. *)
Theorem independent_cursors :
  (forall (w : World FakeChatModel.t) (X Y Z : BaseMessage) (c1 c2 c3 : Call),
     result ((a ← FakeChatModel.new [X; Y];
              b ← FakeChatModel.new [Z];
              play FakeChatModel._generate
                [(Model a, c1); (Model b, c2); (Model a, c3)]) w)
       = Ret [inr (FakeChatModel.reply X); inr (FakeChatModel.reply Z);
              inr (FakeChatModel.reply Y)])
  /\ (forall (w : World FakeChatModel.t) (self other : loc) (c : Call),
     other <> self ->
     heap (final (FakeChatModel._generate self (messages c) (stop c) (run_manager c)
                    (kwargs c) w)) !! other
       = heap w !! other)
  /\ (forall (w : World MockChatModel.t) (X Y Z : string) (c1 c2 c3 : Call),
     result ((a ← MockChatModel.__init__ [X; Y];
              b ← MockChatModel.__init__ [Z];
              play MockChatModel._generate
                [(Model a, c1); (Model b, c2); (Model a, c3)]) w)
       = Ret [inr (MockChatModel.reply X); inr (MockChatModel.reply Z);
              inr (MockChatModel.reply Y)])
  /\ (forall (w : World MockChatModel.t) (self other : loc) (c : Call),
     other <> self ->
     heap (final (MockChatModel._generate self (messages c) (stop c) (run_manager c)
                    (kwargs c) w)) !! other
       = heap w !! other).
Proof.
  split; [| split; [| split]].
  - intros w X Y Z c1 c2 c3.
    apply (two_models FakeChatModel._generate FakeChatModel.idx FakeChatModel.responses
             FakeChatModel.advance FakeChatModel.reply
             (fun _ => eq_refl) (fun _ => eq_refl) FakeReplay.fake_call_in_script
             (FakeChatModel.mk 0 [X; Y]) (FakeChatModel.mk 0 [Z]));
      reflexivity.
  - intros w self other c Hne.
    destruct (heap w !! self) as [m |] eqn:Hm.
    + destruct (FakeFacts.fake_cases w self m (messages c) (stop c) (run_manager c)
                  (kwargs c) Hm) as [[x Hrun] | Hrun]; rewrite Hrun; cbn [final heap].
      * apply list_lookup_insert_ne. intros E. apply Hne. symmetry. exact E.
      * reflexivity.
    + rewrite (FakeFacts.fake_generate_unallocated _ _ _ _ _ _ Hm). reflexivity.
  - intros w X Y Z c1 c2 c3.
    apply (two_models MockChatModel._generate MockChatModel.current_index
             MockChatModel.responses MockChatModel.advance MockChatModel.reply
             (fun _ => eq_refl) (fun _ => eq_refl) MockReplay.mock_call_in_script
             (MockChatModel.mk [X; Y] 0) (MockChatModel.mk [Z] 0));
      reflexivity.
  - intros w self other c Hne.
    destruct (heap w !! self) as [m |] eqn:Hm.
    + destruct (MockFacts.mock_cases w self m (messages c) (stop c) (run_manager c)
                  (kwargs c) Hm) as [[x Hrun] | [Hrun | Hrun]];
        rewrite Hrun; cbn [final heap].
      * apply list_lookup_insert_ne. intros E. apply Hne. symmetry. exact E.
      * reflexivity.
      * reflexivity.
    + rewrite (MockFacts.mock_generate_unallocated _ _ _ _ _ _ Hm). reflexivity.
Qed.

Lemma independent_cursors_witness :
  heap (final (FakeChatModel._generate 0%nat (messages Sample.h1) (stop Sample.h1)
                 (run_manager Sample.h1) (kwargs Sample.h1) Sample.fake_mid)) !! 1%nat
    = Some (FakeChatModel.mk 0 [Sample.z])
  /\ heap (final (MockChatModel._generate 0%nat (messages Sample.h2) (stop Sample.h2)
                    (run_manager Sample.h2) (kwargs Sample.h2) Sample.mock_mid)) !! 1%nat
    = Some (MockChatModel.mk ["z"%string] 0).
Proof.
  destruct independent_cursors as (_ & HF & _ & HM). split.
  - apply (HF Sample.fake_mid 0%nat 1%nat Sample.h1). lia.
  - apply (HM Sample.mock_mid 0%nat 1%nat Sample.h2). lia.
Defined.

(** ** What one call touches, and how long it runs *)

(** Claim C7. A call of [_generate] writes nothing to the console, allocates
    nothing, leaves every other object of the store as it was, and leaves
    the responses of its own model as they were: of the model's two
    fields only the cursor can differ afterwards, and then it is one
    more than before. *)
Theorem generate_only_moves_cursor :
  (forall (w : World FakeChatModel.t) (self : loc) (c : Call),
     let r := FakeChatModel._generate self (messages c) (stop c) (run_manager c)
                (kwargs c) w in
     stdout (final r) = stdout w /\
     length (heap (final r)) = length (heap w) /\
     (forall other, other <> self -> heap (final r) !! other = heap w !! other) /\
     (forall m, heap w !! self = Some m ->
        exists m', heap (final r) !! self = Some m' /\
          FakeChatModel.responses m' = FakeChatModel.responses m /\
          (FakeChatModel.idx m' = FakeChatModel.idx m \/
           FakeChatModel.idx m' = FakeChatModel.idx m + 1)))
  /\ (forall (w : World MockChatModel.t) (self : loc) (c : Call),
     let r := MockChatModel._generate self (messages c) (stop c) (run_manager c)
                (kwargs c) w in
     stdout (final r) = stdout w /\
     length (heap (final r)) = length (heap w) /\
     (forall other, other <> self -> heap (final r) !! other = heap w !! other) /\
     (forall m, heap w !! self = Some m ->
        exists m', heap (final r) !! self = Some m' /\
          MockChatModel.responses m' = MockChatModel.responses m /\
          (MockChatModel.current_index m' = MockChatModel.current_index m \/
           MockChatModel.current_index m' = MockChatModel.current_index m + 1))).
Proof.
  split.
  - intros w self c r. subst r.
    destruct (heap w !! self) as [m |] eqn:Hm.
    + destruct (FakeFacts.fake_cases w self m (messages c) (stop c) (run_manager c)
                  (kwargs c) Hm) as [[x Hrun] | Hrun];
        rewrite Hrun; cbn [final heap stdout].
      * split; [reflexivity |]. split; [apply length_insert |]. split.
        -- intros other Hne. apply list_lookup_insert_ne. congruence.
        -- intros m1 Hm1. injection Hm1 as <-. exists (FakeChatModel.advance m).
           split; [apply (lookup_update_same _ _ _ _ Hm) |].
           split; [reflexivity | right; reflexivity].
      * split; [reflexivity |]. split; [reflexivity |]. split; [reflexivity |].
        intros m1 Hm1. injection Hm1 as <-. exists m.
        split; [exact Hm |]. split; [reflexivity | left; reflexivity].
    + rewrite (FakeFacts.fake_generate_unallocated _ _ _ _ _ _ Hm). cbn [final].
      split; [reflexivity |]. split; [reflexivity |]. split; [reflexivity |].
      intros m1 Hm1. discriminate.
  - intros w self c r. subst r.
    destruct (heap w !! self) as [m |] eqn:Hm.
    + destruct (MockFacts.mock_cases w self m (messages c) (stop c) (run_manager c)
                  (kwargs c) Hm) as [[x Hrun] | [Hrun | Hrun]];
        rewrite Hrun; cbn [final heap stdout].
      * split; [reflexivity |]. split; [apply length_insert |]. split.
        -- intros other Hne. apply list_lookup_insert_ne. congruence.
        -- intros m1 Hm1. injection Hm1 as <-. exists (MockChatModel.advance m).
           split; [apply (lookup_update_same _ _ _ _ Hm) |].
           split; [reflexivity | right; reflexivity].
      * split; [reflexivity |]. split; [reflexivity |]. split; [reflexivity |].
        intros m1 Hm1. injection Hm1 as <-. exists m.
        split; [exact Hm |]. split; [reflexivity | left; reflexivity].
      * split; [reflexivity |]. split; [reflexivity |]. split; [reflexivity |].
        intros m1 Hm1. injection Hm1 as <-. exists m.
        split; [exact Hm |]. split; [reflexivity | left; reflexivity].
    + rewrite (MockFacts.mock_generate_unallocated _ _ _ _ _ _ Hm). cbn [final].
      split; [reflexivity |]. split; [reflexivity |]. split; [reflexivity |].
      intros m1 Hm1. discriminate.
Qed.

Lemma generate_only_moves_cursor_witness :
  (heap (final (FakeChatModel._generate 0%nat (messages Sample.h1) (stop Sample.h1)
                  (run_manager Sample.h1) (kwargs Sample.h1) Sample.fake_mid)) !! 1%nat
     = Some (FakeChatModel.mk 0 [Sample.z]) /\
   exists m', heap (final (FakeChatModel._generate 0%nat (messages Sample.h1)
                             (stop Sample.h1) (run_manager Sample.h1)
                             (kwargs Sample.h1) Sample.fake_mid)) !! 0%nat = Some m' /\
     FakeChatModel.responses m' = [Sample.x; Sample.y] /\
     (FakeChatModel.idx m' = 1 \/ FakeChatModel.idx m' = 1 + 1))
  /\ (heap (final (MockChatModel._generate 0%nat (messages Sample.h1) (stop Sample.h1)
                     (run_manager Sample.h1) (kwargs Sample.h1) Sample.mock_mid)) !! 1%nat
     = Some (MockChatModel.mk ["z"%string] 0) /\
   exists m', heap (final (MockChatModel._generate 0%nat (messages Sample.h1)
                             (stop Sample.h1) (run_manager Sample.h1)
                             (kwargs Sample.h1) Sample.mock_mid)) !! 0%nat = Some m' /\
     MockChatModel.responses m' = ["x"; "y"]%string /\
     (MockChatModel.current_index m' = 1 \/ MockChatModel.current_index m' = 1 + 1)).
Proof.
  destruct generate_only_moves_cursor as [HF HM]. split.
  - destruct (HF Sample.fake_mid 0%nat Sample.h1) as (_ & _ & Hother & Hself).
    split; [apply (Hother 1%nat); lia |].
    apply (Hself (FakeChatModel.mk 1 [Sample.x; Sample.y])). reflexivity.
  - destruct (HM Sample.mock_mid 0%nat Sample.h1) as (_ & _ & Hother & Hself).
    split; [apply (Hother 1%nat); lia |].
    apply (Hself (MockChatModel.mk ["x"; "y"]%string 1)). reflexivity.
Defined.

(** Claim C8. A call of [_generate] on a model of the store always ends, with
    a result or with IndexError, after at most 9 primitive operations on
    the fake model and at most 14 on the mock model, however long the
    history it is given and however long the script. *)
Theorem generate_terminates :
  (forall (w : World FakeChatModel.t) (self : loc) (c : Call),
     let r := FakeChatModel._generate self (messages c) (stop c) (run_manager c)
                (kwargs c) w in
     (steps r <= 9)%nat /\
     (forall m, heap w !! self = Some m ->
        (exists out, result r = Ret out) \/ result r = Raise IndexError))
  /\ (forall (w : World MockChatModel.t) (self : loc) (c : Call),
     let r := MockChatModel._generate self (messages c) (stop c) (run_manager c)
                (kwargs c) w in
     (steps r <= 14)%nat /\
     (forall m, heap w !! self = Some m ->
        (exists out, result r = Ret out) \/ result r = Raise IndexError)).
Proof.
  split.
  - intros w self c r. subst r.
    destruct (heap w !! self) as [m |] eqn:Hm.
    + destruct (FakeFacts.fake_cases w self m (messages c) (stop c) (run_manager c)
                  (kwargs c) Hm) as [[x Hrun] | Hrun];
        rewrite Hrun; cbn [steps result]; (split; [lia |]); intros _ _.
      * left. exists (FakeChatModel.reply x). reflexivity.
      * right. reflexivity.
    + rewrite (FakeFacts.fake_generate_unallocated _ _ _ _ _ _ Hm). cbn [steps].
      split; [lia | intros m Hm'; discriminate].
  - intros w self c r. subst r.
    destruct (heap w !! self) as [m |] eqn:Hm.
    + destruct (MockFacts.mock_cases w self m (messages c) (stop c) (run_manager c)
                  (kwargs c) Hm) as [[x Hrun] | [Hrun | Hrun]];
        rewrite Hrun; cbn [steps result]; (split; [lia |]); intros _ _.
      * left. exists (MockChatModel.reply x). reflexivity.
      * right. reflexivity.
      * left. exists (MockChatModel.reply MockChatModel.fallback). reflexivity.
    + rewrite (MockFacts.mock_generate_unallocated _ _ _ _ _ _ Hm). cbn [steps].
      split; [lia | intros m Hm'; discriminate].
Qed.

Lemma generate_terminates_witness :
  ((exists out, result (FakeChatModel._generate 0%nat (messages Sample.h2) (stop Sample.h2)
                          (run_manager Sample.h2) (kwargs Sample.h2) Sample.fake_done)
                = Ret out)
   \/ result (FakeChatModel._generate 0%nat (messages Sample.h2) (stop Sample.h2)
                (run_manager Sample.h2) (kwargs Sample.h2) Sample.fake_done)
      = Raise IndexError)
  /\ ((exists out, result (MockChatModel._generate 0%nat (messages Sample.h2)
                             (stop Sample.h2) (run_manager Sample.h2)
                             (kwargs Sample.h2) Sample.mock_done) = Ret out)
   \/ result (MockChatModel._generate 0%nat (messages Sample.h2) (stop Sample.h2)
                (run_manager Sample.h2) (kwargs Sample.h2) Sample.mock_done)
      = Raise IndexError).
Proof.
  destruct generate_terminates as [HF HM]. split.
  - apply (proj2 (HF Sample.fake_done 0%nat Sample.h2)
             (FakeChatModel.mk 2 [Sample.x; Sample.y])). reflexivity.
  - apply (proj2 (HM Sample.mock_done 0%nat Sample.h2)
             (MockChatModel.mk ["x"; "y"]%string 2)). reflexivity.
Defined.

(** ** Once the script has run out *)

(** Calls on a mock model whose script has run out: every one returns the
    fallback and the world stays as it is. *)
Lemma mock_calls_past_end cs : forall (w : World MockChatModel.t) self m,
  heap w !! self = Some m ->
  len (MockChatModel.responses m) <= MockChatModel.current_index m ->
  result (calls MockChatModel._generate (Model self) cs w)
    = Ret (replicate (length cs) MockChatModel.exhausted) /\
  final (calls MockChatModel._generate (Model self) cs w) = w.
Proof.
  unfold calls. induction cs as [| c cs IH]; intros w self m Hm Hout.
  - split; reflexivity.
  - cbn [fmap list_fmap length].
    assert (Hcall : attempt (invoke MockChatModel._generate (Model self) c) w
                    = mkRun (Ret MockChatModel.exhausted) w 9%nat).
    { unfold attempt, invoke. rewrite (MockFacts.mock_past_end _ _ _ _ _ _ _ Hm Hout).
      reflexivity. }
    destruct (IH w self m Hm Hout) as [IHres IHfin].
    destruct (play_cons MockChatModel._generate (Model self) c
                (pair (Model self) <$> cs) w MockChatModel.exhausted
                (replicate (length cs) MockChatModel.exhausted)) as [Pres Pfin].
    + rewrite Hcall. reflexivity.
    + rewrite Hcall. exact IHres.
    + rewrite Pres, Pfin, Hcall. split; [reflexivity | exact IHfin].
Qed.

(** Claim C9. On a mock model whose cursor is at or past the end of its
    responses, [_generate] returns an AI message whose content is the
    sentence "I don't have more responses configured." and leaves the
    world, the cursor with it, as it was; so any number of further calls
    all return that message. *)
Theorem mock_fallback_is_sticky :
  forall (w : World MockChatModel.t) (self : loc) (m : MockChatModel.t)
         (c : Call) (cs : list Call),
    heap w !! self = Some m ->
    len (MockChatModel.responses m) <= MockChatModel.current_index m ->
    let sentinel :=
      mkChatResult
        [mkChatGeneration (AIMessage "I don't have more responses configured." [])] in
    result (MockChatModel._generate self (messages c) (stop c) (run_manager c)
              (kwargs c) w) = Ret sentinel /\
    final (MockChatModel._generate self (messages c) (stop c) (run_manager c)
             (kwargs c) w) = w /\
    result (calls MockChatModel._generate (Model self) cs w)
      = Ret (replicate (length cs) (inr sentinel)) /\
    final (calls MockChatModel._generate (Model self) cs w) = w.
Proof.
  intros w self m c cs Hm Hout sentinel. subst sentinel.
  rewrite (MockFacts.mock_past_end _ _ _ _ _ _ _ Hm Hout).
  split; [reflexivity |]. split; [reflexivity |].
  exact (mock_calls_past_end cs w self m Hm Hout).
Qed.

Lemma mock_fallback_is_sticky_witness :
  result (MockChatModel._generate 0%nat (messages Sample.h1) (stop Sample.h1)
            (run_manager Sample.h1) (kwargs Sample.h1) Sample.mock_done)
    = Ret (MockChatModel.reply "I don't have more responses configured.")
  /\ final (MockChatModel._generate 0%nat (messages Sample.h1) (stop Sample.h1)
              (run_manager Sample.h1) (kwargs Sample.h1) Sample.mock_done)
    = Sample.mock_done
  /\ result (calls MockChatModel._generate (Model 0%nat) [Sample.h2; Sample.h3]
               Sample.mock_done)
    = Ret [inr (MockChatModel.reply "I don't have more responses configured.");
           inr (MockChatModel.reply "I don't have more responses configured.")]
  /\ final (calls MockChatModel._generate (Model 0%nat) [Sample.h2; Sample.h3]
              Sample.mock_done)
    = Sample.mock_done.
Proof.
  apply (mock_fallback_is_sticky Sample.mock_done 0%nat
           (MockChatModel.mk ["x"; "y"]%string 2) Sample.h1 [Sample.h2; Sample.h3]).
  - reflexivity.
  - unfold len. simpl. lia.
Defined.

(** Claim C10. On a fake model whose cursor is at or past the end of its
    responses, [_generate] raises IndexError at the subscript, its third
    operation and before the cursor is written, and leaves the whole
    world, the cursor with it, as it was. *)
Theorem fake_failure_is_atomic :
  forall (w : World FakeChatModel.t) (self : loc) (m : FakeChatModel.t) (c : Call),
    heap w !! self = Some m ->
    len (FakeChatModel.responses m) <= FakeChatModel.idx m ->
    let r := FakeChatModel._generate self (messages c) (stop c) (run_manager c)
               (kwargs c) w in
    result r = Raise IndexError /\ final r = w /\ steps r = 3%nat /\
    heap (final r) !! self = Some m.
Proof.
  intros w self m c Hm Hout r. subst r.
  rewrite (FakeFacts.fake_past_end _ _ _ _ _ _ _ Hm Hout). cbn [result final steps].
  repeat split. exact Hm.
Qed.

Lemma fake_failure_is_atomic_witness :
  result (FakeChatModel._generate 0%nat (messages Sample.h1) (stop Sample.h1)
            (run_manager Sample.h1) (kwargs Sample.h1) Sample.fake_done)
    = Raise IndexError
  /\ final (FakeChatModel._generate 0%nat (messages Sample.h1) (stop Sample.h1)
              (run_manager Sample.h1) (kwargs Sample.h1) Sample.fake_done)
    = Sample.fake_done
  /\ steps (FakeChatModel._generate 0%nat (messages Sample.h1) (stop Sample.h1)
              (run_manager Sample.h1) (kwargs Sample.h1) Sample.fake_done) = 3%nat
  /\ heap (final (FakeChatModel._generate 0%nat (messages Sample.h1) (stop Sample.h1)
                    (run_manager Sample.h1) (kwargs Sample.h1) Sample.fake_done)) !! 0%nat
    = Some (FakeChatModel.mk 2 [Sample.x; Sample.y]).
Proof.
  apply (fake_failure_is_atomic Sample.fake_done 0%nat
           (FakeChatModel.mk 2 [Sample.x; Sample.y]) Sample.h1).
  - reflexivity.
  - unfold len. simpl. lia.
Defined.

(** ** More on the scripted models *)

(** X1. On a newly constructed model with N responses, [k] calls end with
    the first [min k N] responses, in order, followed by [k - N]
    exhausted outcomes: IndexError on the fake model, the fallback
    message on the mock model. *)
Theorem replay_then_exhausted :
  (forall (w : World FakeChatModel.t) (rs : list BaseMessage) (cs : list Call),
     result ((a ← FakeChatModel.new rs;
              calls FakeChatModel._generate (Model a) cs) w)
       = Ret ((inr ∘ FakeChatModel.reply <$> take (length cs) rs)
              ++ replicate (length cs - length rs) (inl IndexError)))
  /\ (forall (w : World MockChatModel.t) (rs : list string) (cs : list Call),
     result ((a ← MockChatModel.__init__ rs;
              calls MockChatModel._generate (Model a) cs) w)
       = Ret ((inr ∘ MockChatModel.reply <$> take (length cs) rs)
              ++ replicate (length cs - length rs)
                   (inr (MockChatModel.reply MockChatModel.fallback)))).
Proof.
  split; intros w rs cs.
  - rewrite FakeReplay.fake_session. unfold replayed.
    rewrite drop_0, Nat.sub_0_r. reflexivity.
  - rewrite MockReplay.mock_session. unfold replayed.
    rewrite drop_0, Nat.sub_0_r. reflexivity.
Qed.

(** Playing two scripts one after the other is playing their
    concatenation. *)
Lemma play_app {O : Type} (g : loc -> list BaseMessage -> option (list string) ->
                              option CallbackManagerForLLMRun ->
                              list (string * PyVal) -> M O ChatResult)
    (s1 s2 : list (Runnable * Call)) : forall (w : World O),
  result (play g (s1 ++ s2) w)
    = result ((o1 ← play g s1; o2 ← play g s2; mret (o1 ++ o2)) w) /\
  final (play g (s1 ++ s2) w)
    = final ((o1 ← play g s1; o2 ← play g s2; mret (o1 ++ o2)) w).
Proof.
  induction s1 as [| [r c] s1 IH]; intros w.
  - cbn [app]. rewrite run_bind, play_nil. cbn [result final steps].
    rewrite after_zero, run_bind.
    destruct (play g s2 w) as [[os | e |] w' n]; split; reflexivity.
  - cbn [app play]. unfold mbind, M_bind, Py.bind, mret, M_ret, Py.ret in *.
    cbn beta zeta.
    destruct (attempt (invoke g r c) w) as [[o | e |] w1 n1]; cbn [result final steps];
      [| split; reflexivity | split; reflexivity].
    destruct (IH w1) as [IHres IHfin]. clear IH.
    destruct (play g (s1 ++ s2) w1) as [[os | e |] w2 n2];
      destruct (play g s1 w1) as [[o1 | e1 |] w3 n3];
      cbn [result final steps] in *;
      try discriminate; try (split; [congruence | exact IHfin]);
      destruct (play g s2 w3) as [[o2 | e2 |] w4 n4];
      cbn [result final steps] in *;
      try discriminate; try (split; [congruence | exact IHfin]).
    injection IHres as ->. split; [reflexivity | exact IHfin].
Qed.


(** X3. Retrying an exhausted fake model cannot change the outcome: once
    the cursor is at or past the end of the responses, any number of
    further calls all raise IndexError, and the world stays as it was. *)
Theorem fake_exhaustion_is_permanent :
  forall (w : World FakeChatModel.t) (self : loc) (m : FakeChatModel.t)
         (cs : list Call),
    heap w !! self = Some m ->
    len (FakeChatModel.responses m) <= FakeChatModel.idx m ->
    result (calls FakeChatModel._generate (Model self) cs w)
      = Ret (replicate (length cs) (inl IndexError)) /\
    final (calls FakeChatModel._generate (Model self) cs w) = w.
Proof.
  intros w self m cs Hm Hout. unfold calls.
  induction cs as [| c cs IH].
  - split; reflexivity.
  - cbn [fmap list_fmap length].
    assert (Hcall : attempt (invoke FakeChatModel._generate (Model self) c) w
                    = mkRun (Ret (inl IndexError)) w 3%nat).
    { unfold attempt, invoke. rewrite (FakeFacts.fake_past_end _ _ _ _ _ _ _ Hm Hout).
      reflexivity. }
    destruct IH as [IHres IHfin].
    destruct (play_cons FakeChatModel._generate (Model self) c
                (pair (Model self) <$> cs) w (inl IndexError)
                (replicate (length cs) (inl IndexError))) as [Pres Pfin].
    + rewrite Hcall. reflexivity.
    + rewrite Hcall. exact IHres.
    + rewrite Pres, Pfin, Hcall. split; [reflexivity | exact IHfin].
Qed.

Lemma fake_exhaustion_is_permanent_witness :
  result (calls FakeChatModel._generate (Model 0%nat) [Sample.h1; Sample.h2; Sample.h3]
            Sample.fake_done)
    = Ret [inl IndexError; inl IndexError; inl IndexError]
  /\ final (calls FakeChatModel._generate (Model 0%nat) [Sample.h1; Sample.h2; Sample.h3]
              Sample.fake_done)
    = Sample.fake_done.
Proof.
  apply (fake_exhaustion_is_permanent Sample.fake_done 0%nat
           (FakeChatModel.mk 2 [Sample.x; Sample.y]) [Sample.h1; Sample.h2; Sample.h3]).
  - reflexivity.
  - unfold len. simpl. lia.
Defined.

(** X4. The mock model never raises on a model whose cursor is not
    negative: a call returns a result, and the cursor is not negative
    afterwards either.  So no call of a session on a newly constructed
    mock model raises. *)
Theorem mock_never_raises :
  (forall (w : World MockChatModel.t) (self : loc) (m : MockChatModel.t) (c : Call),
     heap w !! self = Some m -> 0 <= MockChatModel.current_index m ->
     let r := MockChatModel._generate self (messages c) (stop c) (run_manager c)
                (kwargs c) w in
     (exists out, result r = Ret out) /\
     exists m', heap (final r) !! self = Some m' /\
       0 <= MockChatModel.current_index m')
  /\ (forall (w : World MockChatModel.t) (rs : list string) (cs : list Call),
     exists outs : list ChatResult,
       result ((a ← MockChatModel.__init__ rs;
                calls MockChatModel._generate (Model a) cs) w) = Ret (inr <$> outs)).
Proof.
  split.
  - intros w self m c Hm Hpos r. subst r.
    destruct (Z.lt_ge_cases (MockChatModel.current_index m)
                (len (MockChatModel.responses m))) as [Hlt | Hge].
    + destruct (MockFacts.mock_in_script w self m (messages c) (stop c) (run_manager c)
                  (kwargs c) Hm (conj Hpos Hlt)) as (x & _ & Hrun).
      rewrite Hrun. cbn [result final heap]. split; [eexists; reflexivity |].
      exists (MockChatModel.advance m).
      split; [apply (lookup_update_same _ _ _ _ Hm) | cbn; lia].
    + rewrite (MockFacts.mock_past_end w self m _ _ _ _ Hm Hge). cbn [result final].
      split; [eexists; reflexivity |]. exists m. split; [exact Hm | exact Hpos].
  - intros w rs cs.
    exists ((MockChatModel.reply <$> take (length cs) rs)
            ++ replicate (length cs - length rs)
                 (MockChatModel.reply MockChatModel.fallback)).
    rewrite MockReplay.mock_session. unfold replayed.
    rewrite drop_0, Nat.sub_0_r, fmap_app, fmap_replicate.
    rewrite <- list_fmap_compose. reflexivity.
Qed.

Lemma mock_never_raises_witness :
  (exists out, result (MockChatModel._generate 0%nat (messages Sample.h1)
                         (stop Sample.h1) (run_manager Sample.h1)
                         (kwargs Sample.h1) Sample.mock_mid) = Ret out)
  /\ exists m', heap (final (MockChatModel._generate 0%nat (messages Sample.h1)
                               (stop Sample.h1) (run_manager Sample.h1)
                               (kwargs Sample.h1) Sample.mock_mid)) !! 0%nat = Some m' /\
       0 <= MockChatModel.current_index m'.
Proof.
  apply (proj1 mock_never_raises Sample.mock_mid 0%nat
           (MockChatModel.mk ["x"; "y"]%string 1) Sample.h1).
  - reflexivity.
  - simpl. lia.
Defined.

Lemma getitem_from_the_end {A : Type} (l : list A) (i : Z) :
  - len l <= i < 0 ->
  exists x, l !! Z.to_nat (i + len l) = Some x /\ getitem l i = inr x.
Proof.
  intros [Hlo Hhi]. unfold getitem.
  destruct (Z.ltb_spec i 0) as [_ | Hge]; [| lia].
  destruct (Z.ltb_spec (i + len l) 0) as [Hneg | _]; [lia |].
  destruct (Z.leb_spec (len l) (i + len l)) as [Hbig | _]; [lia |].
  cbn [orb].
  destruct (lookup_lt_is_Some_2 l (Z.to_nat (i + len l))) as [x Hx];
    [unfold len in *; lia |].
  exists x. rewrite Hx. split; reflexivity.
Qed.

Lemma getitem_before_start {A : Type} (l : list A) (i : Z) :
  i < - len l -> getitem l i = inl IndexError.
Proof.
  intros Hlo. unfold getitem. assert (0 <= len l) by (unfold len; lia).
  destruct (Z.ltb_spec i 0) as [_ | Hge]; [| lia].
  destruct (Z.ltb_spec (i + len l) 0) as [_ | Hge]; [reflexivity | lia].
Qed.

(** X5. A negative cursor counts from the end.  On a fake model whose
    [idx] is [-k] with [1 <= k <= N], a call returns the response at
    position [N - k] and moves [idx] to [-k + 1]; with [idx] below [-N]
    the call raises IndexError and leaves the world as it was. *)
Theorem fake_negative_cursor :
  forall (w : World FakeChatModel.t) (self : loc) (m : FakeChatModel.t) (c : Call),
    heap w !! self = Some m ->
    FakeChatModel.idx m < 0 ->
    let r := FakeChatModel._generate self (messages c) (stop c) (run_manager c)
               (kwargs c) w in
    (- len (FakeChatModel.responses m) <= FakeChatModel.idx m ->
       exists x,
         FakeChatModel.responses m
           !! Z.to_nat (FakeChatModel.idx m + len (FakeChatModel.responses m)) = Some x /\
         result r = Ret (FakeChatModel.reply x) /\
         heap (final r) !! self
           = Some (FakeChatModel.mk (FakeChatModel.idx m + 1) (FakeChatModel.responses m)))
    /\ (FakeChatModel.idx m < - len (FakeChatModel.responses m) ->
       result r = Raise IndexError /\ final r = w).
Proof.
  intros w self m c Hm Hneg r. subst r.
  rewrite (FakeFacts.fake_generate_run _ _ _ _ _ _ _ Hm). split.
  - intros Hlo.
    destruct (getitem_from_the_end (FakeChatModel.responses m) (FakeChatModel.idx m)
                (conj Hlo Hneg)) as (x & Hx & Hget).
    exists x. rewrite Hget. cbn [result final heap].
    split; [exact Hx |]. split; [reflexivity |].
    apply (lookup_update_same _ _ _ _ Hm).
  - intros Hlo. rewrite (getitem_before_start _ _ Hlo). split; reflexivity.
Qed.

Lemma fake_negative_cursor_witness :
  exists x,
    [Sample.x; Sample.y] !! Z.to_nat (-1 + 2) = Some x /\
    result (FakeChatModel._generate 0%nat (messages Sample.h1) (stop Sample.h1)
              (run_manager Sample.h1) (kwargs Sample.h1)
              (mkWorld [FakeChatModel.mk (-1) [Sample.x; Sample.y]] []))
      = Ret (FakeChatModel.reply x) /\
    heap (final (FakeChatModel._generate 0%nat (messages Sample.h1) (stop Sample.h1)
                   (run_manager Sample.h1) (kwargs Sample.h1)
                   (mkWorld [FakeChatModel.mk (-1) [Sample.x; Sample.y]] []))) !! 0%nat
      = Some (FakeChatModel.mk (-1 + 1) [Sample.x; Sample.y]).
Proof.
  assert (Hneg : FakeChatModel.idx (FakeChatModel.mk (-1) [Sample.x; Sample.y]) < 0)
    by (simpl; lia).
  apply (proj1 (fake_negative_cursor
                  (mkWorld [FakeChatModel.mk (-1) [Sample.x; Sample.y]] []) 0%nat
                  (FakeChatModel.mk (-1) [Sample.x; Sample.y]) Sample.h1
                  eq_refl Hneg)).
  unfold len. simpl. lia.
Defined.

(** ** Running a tool *)

Section ToolRun.
Context {A B : Type}.
Implicit Types (k : A -> Tool.Outcome B).

Lemma tool_bind_ret (a : A) k : (mret a ≫= k) = k a.
Proof.
  unfold mbind, Tool_bind, Tool.bind, mret, Tool_ret, Tool.ret.
  cbn [Tool.returned Tool.printed app]. destruct (k a). reflexivity.
Qed.

Lemma tool_bind_item (d : Tool.dict A) key v k :
  Tool.lookup d key = Some v -> (Tool.item d key ≫= k) = k v.
Proof.
  intros Hv. unfold mbind, Tool_bind, Tool.bind, Tool.item. rewrite Hv.
  cbn [Tool.returned Tool.printed app]. destruct (k v). reflexivity.
Qed.

Lemma tool_bind_print line (k : unit -> Tool.Outcome B) :
  (Tool.print line ≫= k)
    = Tool.mkOutcome (line :: Tool.printed (k tt)) (Tool.returned (k tt)).
Proof. reflexivity. Qed.

(** A key that is not among the keys of a dict is not found. *)
Lemma lookup_unknown (d : Tool.dict A) key :
  key ∉ Tool.keys d -> Tool.lookup d key = None.
Proof.
  unfold Tool.keys. induction d as [| [k' v] d IH]; intros Hnot; [reflexivity |].
  cbn [Tool.lookup]. rewrite fmap_cons, not_elem_of_cons in Hnot.
  destruct Hnot as [Hne Hnot]. cbn [fst] in Hne.
  destruct (String.eqb_spec k' key) as [-> | _]; [congruence | exact (IH Hnot)].
Qed.

Lemma get_unknown (d : Tool.dict A) key default :
  key ∉ Tool.keys d -> Tool.get d key default = default.
Proof. intros Hnot. unfold Tool.get. rewrite (lookup_unknown _ _ Hnot). reflexivity. Qed.

(** What [get] returns is the default or one of the values. *)
Lemma get_Forall (P : A -> Prop) (d : Tool.dict A) key default :
  P default -> Forall (fun kv => P (snd kv)) d -> P (Tool.get d key default).
Proof.
  intros Hd Hall. unfold Tool.get.
  induction Hall as [| [k' v] d Hv Hall IH]; [exact Hd |].
  cbn [Tool.lookup]. destruct (String.eqb k' key); [exact Hv | exact IH].
Qed.

Lemma lookup_elem_of (d : Tool.dict A) key v :
  Tool.lookup d key = Some v -> (key, v) ∈ d.
Proof.
  induction d as [| [k' v'] d IH]; cbn [Tool.lookup]; [discriminate |].
  destruct (String.eqb_spec k' key) as [-> | _].
  - intros [= ->]. apply list_elem_of_here.
  - intros Hv. apply list_elem_of_further, IH, Hv.
Qed.

(** When the default is itself an entry of the dict, what [get] returns
    is an entry of the dict. *)
Lemma get_elem_of (d : Tool.dict A) key default_key default :
  Tool.lookup d default_key = Some default ->
  exists found : string, (found, Tool.get d key default) ∈ d.
Proof.
  intros Hd. unfold Tool.get. destruct (Tool.lookup d key) as [v |] eqn:Hv.
  - exists key. apply lookup_elem_of, Hv.
  - exists default_key. apply lookup_elem_of, Hd.
Qed.
End ToolRun.

(** ** Slices and lengths *)

Lemma string_length_app (s t : string) :
  String.length (s +:+ t) = (String.length s + String.length t)%nat.
Proof. induction s as [| c s IH]; simpl; [reflexivity | f_equal; exact IH]. Qed.

Lemma slice_to_length n (s : string) : (String.length (Str.slice_to n s) <= n)%nat.
Proof.
  unfold Str.slice_to. revert s. induction n as [| n IH]; intros [| c s]; cbn; try lia.
  specialize (IH s). lia.
Qed.

Lemma slice_to_slice_to n m (s : string) :
  (n <= m)%nat -> Str.slice_to n (Str.slice_to m s) = Str.slice_to n s.
Proof.
  unfold Str.slice_to. revert m s. induction n as [| n IH]; intros m s Hle.
  - destruct m, s; reflexivity.
  - destruct m as [| m]; [lia |]. destruct s as [| c s]; [reflexivity |].
    cbn. rewrite IH by lia. reflexivity.
Qed.

(** ** The search tools *)

(** X6. [web_search] of examples/demo_supervisor.py prints one line and
    never raises.  The first key of [mock_results], in the order FAANG,
    weather, news, that occurs in the query when both are lower-cased
    decides the answer; a query in which none occurs is echoed after the
    words "Mock search results for: ". *)
Theorem web_search_first_match :
  forall query : string,
    Str.is_ascii query = true ->
    Tool.printed (DemoSupervisor.web_search query)
      = ["🔍 Research Agent: Searching for '" +:+ query +:+ "'"] /\
    (Str.contains "faang" (Str.lower query) = true ->
       Some (Tool.returned (DemoSupervisor.web_search query))
         = inr <$> Tool.lookup DemoSupervisor.mock_results "FAANG") /\
    (Str.contains "faang" (Str.lower query) = false ->
     Str.contains "weather" (Str.lower query) = true ->
       Some (Tool.returned (DemoSupervisor.web_search query))
         = inr <$> Tool.lookup DemoSupervisor.mock_results "weather") /\
    (Str.contains "faang" (Str.lower query) = false ->
     Str.contains "weather" (Str.lower query) = false ->
     Str.contains "news" (Str.lower query) = true ->
       Some (Tool.returned (DemoSupervisor.web_search query))
         = inr <$> Tool.lookup DemoSupervisor.mock_results "news") /\
    (Str.contains "faang" (Str.lower query) = false ->
     Str.contains "weather" (Str.lower query) = false ->
     Str.contains "news" (Str.lower query) = false ->
       Tool.returned (DemoSupervisor.web_search query)
         = inr ("Mock search results for: " +:+ query)).
Proof.
  intros query _. unfold DemoSupervisor.web_search. rewrite tool_bind_print.
  cbn [Tool.printed Tool.returned].
  change (Tool.keys DemoSupervisor.mock_results) with ["FAANG"; "weather"; "news"].
  cbn [DemoSupervisor.web_search_loop].
  change (Str.lower "FAANG") with "faang".
  change (Str.lower "weather") with "weather".
  change (Str.lower "news") with "news".
  destruct (Str.contains "faang" (Str.lower query));
    destruct (Str.contains "weather" (Str.lower query));
    destruct (Str.contains "news" (Str.lower query));
    repeat split; intros; try discriminate; reflexivity.
Qed.

Lemma web_search_first_match_witness :
  Some (Tool.returned (DemoSupervisor.web_search "Weather and FAANG news"))
    = inr <$> Tool.lookup DemoSupervisor.mock_results "FAANG"
  /\ Tool.returned (DemoSupervisor.web_search "Quantum computing?")
    = inr "Mock search results for: Quantum computing?".
Proof.
  split.
  - destruct (web_search_first_match "Weather and FAANG news" eq_refl)
      as (_ & Hfaang & _).
    exact (Hfaang eq_refl).
  - destruct (web_search_first_match "Quantum computing?" eq_refl)
      as (_ & _ & _ & _ & Hecho).
    exact (Hecho eq_refl eq_refl eq_refl).
Defined.

(** X7. [search_information] of examples/real_world_example.py prints
    one line and ignores the case of the query: two queries that are
    equal once lower-cased get the same answer, unless none of the words
    weather, stock, price and news occurs in them, in which case each
    query is echoed as it was typed. *)
Theorem search_information_ignores_case :
  forall query query' : string,
    Str.is_ascii query = true -> Str.is_ascii query' = true ->
    Str.lower query = Str.lower query' ->
    Tool.printed (RealWorldExample.search_information query)
      = ["🔍 Research Agent: Searching for '" +:+ query +:+ "'"] /\
    (Tool.returned (RealWorldExample.search_information query)
       = Tool.returned (RealWorldExample.search_information query')
     \/ (Str.contains "weather" (Str.lower query) = false /\
         Str.contains "stock" (Str.lower query) = false /\
         Str.contains "price" (Str.lower query) = false /\
         Str.contains "news" (Str.lower query) = false /\
         Tool.returned (RealWorldExample.search_information query)
           = inr ("Search results for '" +:+ query
                  +:+ "': Found relevant information about the topic") /\
         Tool.returned (RealWorldExample.search_information query')
           = inr ("Search results for '" +:+ query'
                  +:+ "': Found relevant information about the topic"))).
Proof.
  intros query query' _ _ Hlow. unfold RealWorldExample.search_information.
  rewrite !tool_bind_print. cbn [Tool.printed Tool.returned].
  rewrite <- Hlow.
  destruct (Str.contains "weather" (Str.lower query));
    [split; [reflexivity | left; reflexivity] |].
  destruct (Str.contains "stock" (Str.lower query));
    [split; [reflexivity | left; reflexivity] |].
  destruct (Str.contains "price" (Str.lower query));
    [split; [reflexivity | left; reflexivity] |].
  destruct (Str.contains "news" (Str.lower query));
    [split; [reflexivity | left; reflexivity] |].
  split; [reflexivity | right; repeat split].
Qed.

Lemma search_information_ignores_case_witness :
  Tool.returned (RealWorldExample.search_information "Stock PRICE today")
    = Tool.returned (RealWorldExample.search_information "stock price TODAY")
  \/ (Str.contains "weather" (Str.lower "Stock PRICE today") = false /\
      Str.contains "stock" (Str.lower "Stock PRICE today") = false /\
      Str.contains "price" (Str.lower "Stock PRICE today") = false /\
      Str.contains "news" (Str.lower "Stock PRICE today") = false /\
      Tool.returned (RealWorldExample.search_information "Stock PRICE today")
        = inr ("Search results for '" +:+ "Stock PRICE today"
               +:+ "': Found relevant information about the topic") /\
      Tool.returned (RealWorldExample.search_information "stock price TODAY")
        = inr ("Search results for '" +:+ "stock price TODAY"
               +:+ "': Found relevant information about the topic")).
Proof.
  exact (proj2 (search_information_ignores_case "Stock PRICE today" "stock price TODAY"
                  eq_refl eq_refl eq_refl)).
Defined.

(** X8. [analyze_data] of examples/real_world_example.py reads only the
    beginning of its argument: two arguments with the same first 50
    characters are printed about and answered alike, the answer mentions
    at most the first 30 characters, and it is at most 107 characters
    long however long the data. *)
Theorem analyze_data_reads_a_prefix :
  forall data data' : string,
    Str.is_ascii data = true -> Str.is_ascii data' = true ->
    Str.slice_to 50 data = Str.slice_to 50 data' ->
    RealWorldExample.analyze_data data = RealWorldExample.analyze_data data' /\
    exists text,
      Tool.returned (RealWorldExample.analyze_data data) = inr text /\
      (String.length text <= 107)%nat.
Proof.
  intros data data' _ _ Hsame. unfold RealWorldExample.analyze_data.
  rewrite !tool_bind_print. cbn [Tool.printed Tool.returned].
  assert (H30 : Str.slice_to 30 data = Str.slice_to 30 data').
  { rewrite <- (slice_to_slice_to 30 50 data), <- (slice_to_slice_to 30 50 data') by lia.
    rewrite Hsame. reflexivity. }
  split; [rewrite Hsame, H30; reflexivity |].
  eexists. split; [reflexivity |].
  rewrite !string_length_app.
  pose proof (slice_to_length 30 data) as Hlen.
  change (String.length "Analysis complete: The data shows positive trends with key insights about ")
    with 74%nat.
  change (String.length "...") with 3%nat. lia.
Qed.

Lemma analyze_data_reads_a_prefix_witness :
  RealWorldExample.analyze_data
    "Q1: $100k, Q2: $150k, Q3: $200k, Q4: $180k, Q5: $190k and more"
  = RealWorldExample.analyze_data
      "Q1: $100k, Q2: $150k, Q3: $200k, Q4: $180k, Q5: $190k or less"
  /\ exists text,
       Tool.returned (RealWorldExample.analyze_data
                        "Q1: $100k, Q2: $150k, Q3: $200k, Q4: $180k, Q5: $190k and more")
         = inr text /\
       (String.length text <= 107)%nat.
Proof.
  exact (analyze_data_reads_a_prefix
           "Q1: $100k, Q2: $150k, Q3: $200k, Q4: $180k, Q5: $190k and more"
           "Q1: $100k, Q2: $150k, Q3: $200k, Q4: $180k, Q5: $190k or less"
           eq_refl eq_refl eq_refl).
Defined.

(** ** The workout planner of the orchestration example *)

(** Every goal of [workout_plans] has a plan for beginners, which is
    what makes the default of the second lookup safe. *)
Lemma workout_plans_have_beginner (fitness_goal : string) :
  exists beginner,
    Tool.lookup
      (Tool.get Orchestration.workout_plans fitness_goal
         (Tool.get Orchestration.workout_plans "general_fitness" []))
      "beginner" = Some beginner.
Proof.
  apply (get_Forall (fun inner => exists b, Tool.lookup inner "beginner" = Some b)).
  - eexists. reflexivity.
  - unfold Orchestration.workout_plans.
    repeat (constructor; [eexists; reflexivity |]). constructor.
Qed.

(** The planner, step by step. *)
Lemma create_workout_plan_run (fitness_goal experience_level : string)
    (available_days : Z) (equipment beginner : string) :
  Tool.lookup
    (Tool.get Orchestration.workout_plans fitness_goal
       (Tool.get Orchestration.workout_plans "general_fitness" []))
    "beginner" = Some beginner ->
  Orchestration.create_workout_plan fitness_goal experience_level available_days equipment
    = Tool.mkOutcome
        ["💪 Workout Specialist: Creating " +:+ fitness_goal +:+ " plan for "
         +:+ experience_level +:+ " level"]
        (inr (Orchestration.workout_plan_text fitness_goal experience_level
                available_days
                (Tool.get Orchestration.equipment_notes equipment
                   (Tool.get Orchestration.equipment_notes "basic" ""))
                (let plan_description :=
                   Tool.get
                     (Tool.get Orchestration.workout_plans fitness_goal
                        (Tool.get Orchestration.workout_plans "general_fitness" []))
                     experience_level beginner in
                 if available_days <? 3 then
                   "Modified 2-day version: " +:+ plan_description
                 else if 5 <? available_days then
                   "Extended " +:+ Str.of_int available_days +:+ "-day version: "
                   +:+ plan_description
                 else plan_description))).
Proof.
  intros Hb. unfold Orchestration.create_workout_plan.
  rewrite tool_bind_print.
  rewrite (tool_bind_item Orchestration.workout_plans "general_fitness"
             (Tool.get Orchestration.workout_plans "general_fitness" [])) by reflexivity.
  rewrite (tool_bind_item _ "beginner" beginner) by exact Hb.
  rewrite (tool_bind_item Orchestration.equipment_notes "basic"
             (Tool.get Orchestration.equipment_notes "basic" "")) by reflexivity.
  reflexivity.
Qed.



(** Every goal of [workout_plans] has plans for the same three levels. *)
Lemma workout_plans_levels (fitness_goal : string) :
  Tool.keys
    (Tool.get Orchestration.workout_plans fitness_goal
       (Tool.get Orchestration.workout_plans "general_fitness" []))
  = ["beginner"; "intermediate"; "advanced"].
Proof.
  apply (get_Forall
           (fun inner => Tool.keys inner = ["beginner"; "intermediate"; "advanced"])).
  - reflexivity.
  - unfold Orchestration.workout_plans. repeat (constructor; [reflexivity |]).
    constructor.
Qed.



(** ** The exercise modifier of the orchestration example *)

(** X11. [suggest_exercise_modifications] looks the exercise up without
    regard to case and the limitation as it is typed.  When the pair is
    in [modifications], two spellings of the exercise that agree once
    lower-cased get the same recommendation; when the exercise or the
    limitation is not found, the recommendation is to consult a physical
    therapist, and it names the exercise as it was typed.  The fitness
    level never changes the recommendation. *)
Theorem exercise_modification_lookup :
  forall (exercise_name exercise_name' limitation fitness_level : string),
    Str.is_ascii exercise_name = true -> Str.is_ascii exercise_name' = true ->
    Str.is_ascii limitation = true -> Str.is_ascii fitness_level = true ->
    Str.lower exercise_name = Str.lower exercise_name' ->
    (forall modification,
       Tool.lookup (Tool.get Orchestration.modifications (Str.lower exercise_name) [])
         limitation = Some modification ->
       Tool.returned (Orchestration.suggest_exercise_modifications exercise_name
                        limitation fitness_level)
         = inr (Orchestration.modification_text exercise_name limitation fitness_level
                  modification) /\
       Tool.returned (Orchestration.suggest_exercise_modifications exercise_name'
                        limitation fitness_level)
         = inr (Orchestration.modification_text exercise_name' limitation fitness_level
                  modification))
    /\ (Tool.lookup (Tool.get Orchestration.modifications (Str.lower exercise_name) [])
          limitation = None ->
       Tool.returned (Orchestration.suggest_exercise_modifications exercise_name
                        limitation fitness_level)
         = inr (Orchestration.modification_text exercise_name limitation fitness_level
                  ("Consult with a physical therapist for " +:+ exercise_name
                   +:+ " modifications")))
    /\ (Str.lower exercise_name ∉ Tool.keys Orchestration.modifications ->
       Tool.lookup (Tool.get Orchestration.modifications (Str.lower exercise_name) [])
         limitation = None).
Proof.
  intros exercise_name exercise_name' limitation fitness_level _ _ _ _ Hlow.
  unfold Orchestration.suggest_exercise_modifications.
  rewrite !tool_bind_print. cbn [Tool.returned]. rewrite <- Hlow.
  split; [| split].
  - intros modification Hfound. unfold Tool.get at 1 3. rewrite Hfound.
    split; reflexivity.
  - intros Hmissing. unfold Tool.get at 1. rewrite Hmissing. reflexivity.
  - intros Hunknown. rewrite (get_unknown _ _ _ Hunknown). reflexivity.
Qed.

Lemma exercise_modification_lookup_witness :
  (Tool.returned (Orchestration.suggest_exercise_modifications "Push_Ups" "wrist_pain"
                    "beginner")
     = inr (Orchestration.modification_text "Push_Ups" "wrist_pain" "beginner"
              "Push-ups on fists, incline push-ups") /\
   Tool.returned (Orchestration.suggest_exercise_modifications "PUSH_UPS" "wrist_pain"
                    "beginner")
     = inr (Orchestration.modification_text "PUSH_UPS" "wrist_pain" "beginner"
              "Push-ups on fists, incline push-ups"))
  /\ Tool.returned (Orchestration.suggest_exercise_modifications "Squats" "Knee_injury"
                      "advanced")
     = inr (Orchestration.modification_text "Squats" "Knee_injury" "advanced"
              ("Consult with a physical therapist for " +:+ "Squats"
               +:+ " modifications")).
Proof.
  split.
  - apply (proj1 (exercise_modification_lookup "Push_Ups" "PUSH_UPS" "wrist_pain"
                    "beginner" eq_refl eq_refl eq_refl eq_refl eq_refl)).
    reflexivity.
  - apply (proj1 (proj2 (exercise_modification_lookup "Squats" "Squats" "Knee_injury"
                           "advanced" eq_refl eq_refl eq_refl eq_refl eq_refl))).
    reflexivity.
Defined.

(** ** The workout nutrition adviser of the orchestration example *)

(** Every workout type of [pre_workout] and of [post_workout] has a
    timing and foods, which is what the text reads. *)
Lemma nutrition_tables_complete (workout_type : string) :
  exists pre_timing pre_foods post_timing post_foods,
    Tool.lookup (Tool.get Orchestration.pre_workout workout_type
                   (Tool.get Orchestration.pre_workout "strength" []))
      "timing" = Some pre_timing /\
    Tool.lookup (Tool.get Orchestration.pre_workout workout_type
                   (Tool.get Orchestration.pre_workout "strength" []))
      "foods" = Some pre_foods /\
    Tool.lookup (Tool.get Orchestration.post_workout workout_type
                   (Tool.get Orchestration.post_workout "strength" []))
      "timing" = Some post_timing /\
    Tool.lookup (Tool.get Orchestration.post_workout workout_type
                   (Tool.get Orchestration.post_workout "strength" []))
      "foods" = Some post_foods.
Proof.
  assert (Hpre : exists t f,
             Tool.lookup (Tool.get Orchestration.pre_workout workout_type
                            (Tool.get Orchestration.pre_workout "strength" []))
               "timing" = Some t /\
             Tool.lookup (Tool.get Orchestration.pre_workout workout_type
                            (Tool.get Orchestration.pre_workout "strength" []))
               "foods" = Some f).
  { apply (get_Forall (fun inner => exists t f,
                         Tool.lookup inner "timing" = Some t /\
                         Tool.lookup inner "foods" = Some f)).
    - eexists. eexists. split; reflexivity.
    - unfold Orchestration.pre_workout.
      repeat (constructor; [eexists; eexists; split; reflexivity |]). constructor. }
  assert (Hpost : exists t f,
             Tool.lookup (Tool.get Orchestration.post_workout workout_type
                            (Tool.get Orchestration.post_workout "strength" []))
               "timing" = Some t /\
             Tool.lookup (Tool.get Orchestration.post_workout workout_type
                            (Tool.get Orchestration.post_workout "strength" []))
               "foods" = Some f).
  { apply (get_Forall (fun inner => exists t f,
                         Tool.lookup inner "timing" = Some t /\
                         Tool.lookup inner "foods" = Some f)).
    - eexists. eexists. split; reflexivity.
    - unfold Orchestration.post_workout.
      repeat (constructor; [eexists; eexists; split; reflexivity |]). constructor. }
  destruct Hpre as (pt & pf & Hpt & Hpf). destruct Hpost as (qt & qf & Hqt & Hqf).
  exists pt, pf, qt, qf. repeat split; assumption.
Qed.



(** ** The workout planner of the fitness package *)



(** X14. The macronutrient ratio [create_meal_plan] of
    src/fitness_ai/tools.py works with is found without raising for
    every goal, an unknown goal getting the ratio of maintenance; it
    always has a protein, a carbs and a fat share, each positive, and the
    three add up to 100. *)
Theorem meal_plan_ratio_adds_up :
  forall goal : string,
    exists ratio protein carbs fat,
      FitnessTools.meal_plan_ratio goal = Tool.mkOutcome [] (inr ratio) /\
      Tool.lookup ratio "protein" = Some protein /\
      Tool.lookup ratio "carbs" = Some carbs /\
      Tool.lookup ratio "fat" = Some fat /\
      0 < protein /\ 0 < carbs /\ 0 < fat /\
      protein + carbs + fat = 100 /\
      (goal ∉ Tool.keys FitnessTools.ratios ->
         Tool.lookup FitnessTools.ratios "maintenance" = Some ratio).
Proof.
  intros goal.
  exists (Tool.get FitnessTools.ratios goal
            (Tool.get FitnessTools.ratios "maintenance" [])).
  assert (Hshares : exists protein carbs fat,
             Tool.lookup (Tool.get FitnessTools.ratios goal
                            (Tool.get FitnessTools.ratios "maintenance" []))
               "protein" = Some protein /\
             Tool.lookup (Tool.get FitnessTools.ratios goal
                            (Tool.get FitnessTools.ratios "maintenance" []))
               "carbs" = Some carbs /\
             Tool.lookup (Tool.get FitnessTools.ratios goal
                            (Tool.get FitnessTools.ratios "maintenance" []))
               "fat" = Some fat /\
             0 < protein /\ 0 < carbs /\ 0 < fat /\ protein + carbs + fat = 100).
  { apply (get_Forall (fun ratio => exists protein carbs fat,
                         Tool.lookup ratio "protein" = Some protein /\
                         Tool.lookup ratio "carbs" = Some carbs /\
                         Tool.lookup ratio "fat" = Some fat /\
                         0 < protein /\ 0 < carbs /\ 0 < fat /\
                         protein + carbs + fat = 100)).
    - do 3 eexists. repeat split; reflexivity.
    - unfold FitnessTools.ratios.
      repeat (constructor; [do 3 eexists; repeat split; reflexivity |]). constructor. }
  destruct Hshares as (protein & carbs & fat & Hp & Hc & Hf & Hpp & Hcp & Hfp & Hsum).
  exists protein, carbs, fat.
  split.
  { unfold FitnessTools.meal_plan_ratio.
    rewrite (tool_bind_item FitnessTools.ratios "maintenance"
               (Tool.get FitnessTools.ratios "maintenance" [])) by reflexivity.
    reflexivity. }
  repeat (split; [assumption |]).
  intros Hunknown. rewrite (get_unknown _ _ _ Hunknown). reflexivity.
Qed.

Lemma meal_plan_ratio_adds_up_witness :
  exists ratio protein carbs fat,
    FitnessTools.meal_plan_ratio "keto" = Tool.mkOutcome [] (inr ratio) /\
    Tool.lookup ratio "protein" = Some protein /\
    Tool.lookup ratio "carbs" = Some carbs /\
    Tool.lookup ratio "fat" = Some fat /\
    0 < protein /\ 0 < carbs /\ 0 < fat /\
    protein + carbs + fat = 100 /\
    Tool.lookup FitnessTools.ratios "maintenance" = Some ratio.
Proof.
  destruct (meal_plan_ratio_adds_up "keto")
    as (ratio & protein & carbs & fat & Hrun & Hp & Hc & Hf & Hpp & Hcp & Hfp & Hsum
        & Hunknown).
  exists ratio, protein, carbs, fat.
  repeat (split; [assumption |]).
  apply Hunknown. cbn. rewrite !not_elem_of_cons.
  repeat split; try discriminate. apply not_elem_of_nil.
Defined.
